(** * The Grafana dashboard loader: the reconciliation logic of
    pkg/controller/dashboard_controller.go, embedded and verified.

    The controller watches ConfigMaps and mirrors the dashboards they carry
    into Grafana over HTTP.  The embedding keeps the shape of the Go code:
    the selection filter is a pure function, the folder resolver, the upsert
    engine and the deletion engine run in a small monad that threads the
    state of everything outside the process (the Grafana service and the Go
    runtime) and writes the trace of HTTP calls and log lines. *)

From Stdlib Require Import Ascii String QArith.
From stdpp Require Import gmap strings list fin_maps sorting pretty.

Open Scope string_scope.
Open Scope list_scope.
Open Scope Z_scope.

(** ** Strings: the two functions of package [strings] the controller uses *)

Definition is_upper (c : ascii) : bool :=
  let n := nat_of_ascii c in (Nat.leb 65 n && Nat.leb n 90)%bool.

(** [unicode.ToLower] on one byte.  Outside 'A'..'Z' the byte is kept: the
    controller only compares the lowered string with the ASCII constant
    "true", and no rune outside ASCII lowers to one of t, r, u, e. *)
Definition lower_ascii (c : ascii) : ascii :=
  if is_upper c then ascii_of_nat (nat_of_ascii c + 32) else c.

Fixpoint ToLower (s : string) : string :=
  match s with
  | EmptyString => EmptyString
  | String c r => String (lower_ascii c) (ToLower r)
  end.

(** [strings.Contains s substr]. *)
Fixpoint Contains (s substr : string) : bool :=
  (String.prefix substr s ||
   match s with
   | EmptyString => false
   | String _ r => Contains r substr
   end)%bool.

(** The double quote, for the JSON texts the controller and the service
    write. *)
Definition dq : string := String (ascii_of_nat 34) EmptyString.

(** ** The watched resource *)

Record OwnerReference := { Kind : string; OwnerName : string }.

Record ConfigMap := {
  Name : string;
  Namespace : string;
  Labels : gmap string string;
  Annotations : gmap string string;
  OwnerReferences : list OwnerReference;
  Data : gmap string string
}.

(** What the informer hands to a handler: an [interface{}] that holds a
    pointer to a [corev1.ConfigMap] (possibly nil) or something else. *)
Inductive Obj :=
| ObjConfigMap (p : option ConfigMap)
| ObjOther.

(** Reading a Go [map[string]string]: a missing key reads as the empty
    string. *)
Definition mapIndex (m : gmap string string) (k : string) : string :=
  default EmptyString (m !! k).

(** ** The selection filter *)

Definition isDesiredDashboardConfigmap (obj : Obj) : bool :=
  match obj with
  | ObjConfigMap (Some cm) =>
      let labels := Labels cm in
      if String.eqb (ToLower (mapIndex labels "grafana-custom-dashboard")) "true"
      then true
      else
        existsb (fun owner =>
                   (Contains (Name cm) "grafana-dashboard" &&
                    String.eqb (Kind owner) "MultiClusterObservability")%bool)
                (OwnerReferences cm)
  | _ => false
  end.

(** The filter as the specification words it. *)

Definition is_substring (sub s : string) : Prop :=
  ∃ pre post, s = pre +:+ sub +:+ post.

(** Two bytes that are the same letter up to ASCII case. *)
Definition same_letter (c d : ascii) : Prop :=
  c = d
  ∨ (is_upper c = true ∧ nat_of_ascii d = (nat_of_ascii c + 32)%nat)
  ∨ (is_upper d = true ∧ nat_of_ascii c = (nat_of_ascii d + 32)%nat).

Fixpoint equal_ignoring_case (s t : string) : Prop :=
  match s, t with
  | EmptyString, EmptyString => True
  | String c s', String d t' => same_letter c d ∧ equal_ignoring_case s' t'
  | _, _ => False
  end.

Global Instance same_letter_dec c d : Decision (same_letter c d).
Proof. unfold same_letter. apply _. Defined.

Global Instance equal_ignoring_case_dec s t : Decision (equal_ignoring_case s t).
Proof. revert t. induction s; destruct t; simpl; apply _. Defined.

Definition IsManaged (cm : ConfigMap) : Prop :=
  equal_ignoring_case (mapIndex (Labels cm) "grafana-custom-dashboard") "true"
  ∨ (is_substring "grafana-dashboard" (Name cm)
     ∧ ∃ owner, owner ∈ OwnerReferences cm
                ∧ Kind owner = "MultiClusterObservability").

(** ** JSON values, as package [encoding/json] decodes them into
    [interface{}]

    A number is a [float64]; every float a JSON text can denote is finite,
    and it is kept as the rational it stands for, so that [== 0] is
    [Qeq_bool _ 0].  An object keeps its fields as the text lists them; the
    decoder builds the Go map from them. *)

#[warnings="-register-all"] Inductive JSON :=
| JNull
| JBool (b : bool)
| JNumber (x : Q)
| JString (s : string)
| JArray (items : list JSON)
| JObject (fields : list (string * JSON)).

(** A Go [map[string]interface{}] built from the fields of an object: a key
    written twice keeps its last value. *)
Definition fields_to_map (fields : list (string * JSON)) : gmap string JSON :=
  fold_left (λ m kv, <[kv.1 := kv.2]> m) fields ∅.

Definition key_le (a b : string * JSON) : Prop := String.leb a.1 b.1 = true.

Global Instance key_le_dec a b : Decision (key_le a b).
Proof. unfold key_le. apply _. Defined.

(** The encoder writes the keys of a map sorted. *)
Definition map_to_object (m : gmap string JSON) : JSON :=
  JObject (merge_sort key_le (map_to_list m)).

(** ** Everything outside the controller

    [World] is the state of what the process talks to: the Grafana service
    behind [util.SetRequest] and the Go runtime, which draws the order in
    which a [range] over a map visits the entries.  [util.SetRequest] and
    [util.GenerateUID] live in package util, and [json.Unmarshal] and
    [json.Marshal] in the Go library; the controller is verified for every
    one of them. *)

Class Env := {
  World : Type;
  (** [util.SetRequest(method, url, body, retry)]: response body and status. *)
  SetRequest : string → string → option string → Z → World → (string * Z) * World;
  (** [util.GenerateUID(name, namespace)]: the derived uid (the error it also
      returns is dropped by both callers). *)
  GenerateUID : string → string → string;
  (** What [json.Unmarshal] reads from a text before it stores it in a Go
      value: [None] when it fails whatever the target (a text that is not
      JSON, a number outside float64). *)
  json_decode : string → option JSON;
  (** [json.Marshal]. *)
  json_Marshal : JSON → option string;
  (** [for _, value := range m]: the entries in the order of this visit. *)
  mapRange : gmap string string → World → list (string * string) * World;
  mapRange_perm : ∀ m w, (mapRange m w).1 ≡ₚ map_to_list m
}.

(** A Go [map[string]interface{}]: nil, or a map.  Reading a nil map reads
    nil at every key. *)
Inductive GoMap :=
| nil_map
| a_map (m : gmap string JSON).

Definition entries_of (d : GoMap) : gmap string JSON :=
  match d with
  | nil_map => ∅
  | a_map m => m
  end.

Global Instance GoMap_lookup : Lookup string JSON GoMap :=
  λ k d, entries_of d !! k.

(** [json.Unmarshal(text, &m)] for [m] an empty [map[string]interface{}]:
    [null] sets the map to nil, an object fills it, anything else is an
    [UnmarshalTypeError]. *)
Definition Unmarshal_map `{Env} (text : string) : option GoMap :=
  match json_decode text with
  | Some JNull => Some nil_map
  | Some (JObject fields) => Some (a_map (fields_to_map fields))
  | _ => None
  end.

Definition element_map (v : JSON) : option GoMap :=
  match v with
  | JNull => Some nil_map
  | JObject fields => Some (a_map (fields_to_map fields))
  | _ => None
  end.

(** [json.Unmarshal(text, &l)] for [l] a [[]map[string]interface{}]: the
    error is non-nil as soon as one element is not an object or [null]. *)
Definition Unmarshal_maps `{Env} (text : string) : option (list GoMap) :=
  match json_decode text with
  | Some JNull => Some []
  | Some (JArray items) => mapM element_map items
  | _ => None
  end.

(** ** The monad of the handlers *)

Inductive Severity := Info | Error.

Inductive Event :=
| Call (method url : string) (body : option string) (resp : string) (status : Z)
| Log (severity : Severity) (msg : string).

Inductive Outcome (A : Type) :=
| Returned (a : A)
| Panicked (msg : string)
| OutOfFuel.
Arguments Returned {A} a.
Arguments Panicked {A} msg.
Arguments OutOfFuel {A}.

Record Run `{Env} (A : Type) := MkRun {
  outcome : Outcome A;
  final : World;
  trace : list Event
}.
Arguments MkRun {_ A} outcome final trace.
Arguments outcome {_ A} r.
Arguments final {_ A} r.
Arguments trace {_ A} r.

Definition M `{Env} (A : Type) : Type := World → Run A.

Definition ret `{Env} {A} (a : A) : M A := λ w, MkRun (Returned a) w [].

Definition bind `{Env} {A B} (m : M A) (f : A → M B) : M B :=
  λ w,
    let r := m w in
    match outcome r with
    | Returned a =>
        let r' := f a (final r) in
        MkRun (outcome r') (final r') (trace r ++ trace r')
    | Panicked msg => MkRun (Panicked msg) (final r) (trace r)
    | OutOfFuel => MkRun OutOfFuel (final r) (trace r)
    end.

Global Instance M_ret `{Env} : MRet M := @ret _.
Global Instance M_bind `{Env} : MBind M := λ A B f m, bind m f.

Definition panic `{Env} {A} (msg : string) : M A := λ w, MkRun (Panicked msg) w [].
Definition diverge `{Env} {A} : M A := λ w, MkRun OutOfFuel w [].

Definition klog `{Env} (severity : Severity) (msg : string) : M unit :=
  λ w, MkRun (Returned tt) w [Log severity msg].

(** One call of [util.SetRequest], written to the trace. *)
Definition request `{Env} (method url : string) (body : option string) (retry : Z)
  : M (string * Z) :=
  λ w,
    let '(resp, w') := SetRequest method url body retry w in
    MkRun (Returned resp) w' [Call method url body resp.1 resp.2].

Definition range `{Env} (m : gmap string string) : M (list (string * string)) :=
  λ w, let '(entries, w') := mapRange m w in MkRun (Returned entries) w' [].

(** ** The controller *)

Definition grafanaURI : string := "http://127.0.0.1:3001".
Definition retry : Z := 10.

Definition StatusOK : Z := 200.
Definition StatusPreconditionFailed : Z := 412.

(** The type assertion of [obj] to a pointer to [corev1.ConfigMap], followed
    by a field access: a panic on another dynamic type and on a nil pointer. *)
Definition asConfigMap `{Env} (obj : Obj) : M ConfigMap :=
  match obj with
  | ObjConfigMap (Some cm) => ret cm
  | ObjConfigMap None => panic "invalid memory address or nil pointer dereference"
  | ObjOther => panic "interface conversion: interface {} is not *v1.ConfigMap"
  end.

(** [v.(float64)] on the value read from a map ([None] is the nil of a
    missing key). *)
Definition assert_float64 `{Env} (v : option JSON) : M Q :=
  match v with
  | Some (JNumber x) => ret x
  | _ => panic "interface conversion: interface {} is not float64"
  end.

(** [v.(string)]. *)
Definition assert_string `{Env} (v : option JSON) : M string :=
  match v with
  | Some (JString s) => ret s
  | _ => panic "interface conversion: interface {} is not string"
  end.

(** [m[k] = v]: a panic on a nil map. *)
Definition assign `{Env} (d : GoMap) (k : string) (v : JSON) : M GoMap :=
  match d with
  | nil_map => panic "assignment to entry in nil map"
  | a_map m => ret (a_map (<[k := v]> m))
  end.

(** [v == nil] on the value read from a map. *)
Definition is_nil (v : option JSON) : bool :=
  match v with
  | None | Some JNull => true
  | _ => false
  end.

(** [folder["title"] == folderTitle]. *)
Definition title_is (folder : GoMap) (folderTitle : string) : bool :=
  match folder !! "title" with
  | Some (JString s) => String.eqb s folderTitle
  | _ => false
  end.

(** The loop of [hasCustomFolder]. *)
Fixpoint hasCustomFolder_loop `{Env} (folderTitle : string)
    (folders : list GoMap) : M Q :=
  match folders with
  | [] => ret 0%Q
  | folder :: rest =>
      if title_is folder folderTitle
      then assert_float64 (folder !! "id")
      else hasCustomFolder_loop folderTitle rest
  end.

Definition hasCustomFolder `{Env} (folderTitle : string) : M Q :=
  let grafanaURL := grafanaURI +:+ "/api/folders" in
  '(body, _) ← request "GET" grafanaURL None retry;
  match Unmarshal_maps body with
  | None =>
      klog Error "Failed to unmarshall response body";;
      ret 0%Q
  | Some folders => hasCustomFolder_loop folderTitle folders
  end.

Definition createCustomFolder `{Env} (folderTitle : string) : M Q :=
  folderID ← hasCustomFolder folderTitle;
  if Qeq_bool folderID 0 then
    let grafanaURL := grafanaURI +:+ "/api/folders" in
    '(body, _) ← request "POST" grafanaURL
                   (Some ("{" +:+ dq +:+ "title" +:+ dq +:+ ":" +:+ dq
                          +:+ folderTitle +:+ dq +:+ "}")) retry;
    match Unmarshal_map body with
    | None =>
        klog Error "Failed to unmarshall response body";;
        ret 0%Q
    | Some folder => assert_float64 (folder !! "id")
    end
  else ret folderID.

(** The body of one upsert: the Go map literal [data] with its three keys,
    in the order the encoder writes them. *)
Definition upsertRequest (folderID : Q) (overwrite : bool)
    (dashboard : gmap string JSON) : JSON :=
  JObject [("dashboard", map_to_object dashboard);
           ("folderId", JNumber folderID);
           ("overwrite", JBool overwrite)].

(** The loop of [updateDashboard] over the values of [Data]; [again] is the
    call [updateDashboard(obj, true)]. *)
Fixpoint updateDashboard_loop `{Env} (again : M unit) (cm : ConfigMap)
    (folderID : Q) (overwrite : bool) (entries : list (string * string)) : M unit :=
  match entries with
  | [] => ret tt
  | (_, value) :: rest =>
      match Unmarshal_map value with
      | None => klog Error "Failed to unmarshall data"
      | Some dashboard =>
          dashboard ← (if is_nil (dashboard !! "uid")
                       then assign dashboard "uid"
                              (JString (GenerateUID (Name cm) (Namespace cm)))
                       else ret dashboard);
          dashboard ← assign dashboard "id" JNull;
          let data := upsertRequest folderID overwrite (entries_of dashboard) in
          match json_Marshal data with
          | None => klog Error "failed to marshal body"
          | Some b =>
              let grafanaURL := grafanaURI +:+ "/api/dashboards/db" in
              '(body, respStatusCode) ← request "POST" grafanaURL (Some b) retry;
              (if negb (respStatusCode =? StatusOK) then
                 if respStatusCode =? StatusPreconditionFailed then
                   if Contains body "version-mismatch" then again
                   else if Contains body "name-exists" then
                     klog Info "the dashboard name already existed"
                   else klog Info "failed to create/update"
                 else klog Info "failed to create/update"
               else klog Info "Dashboard created/updated");;
              updateDashboard_loop again cm folderID overwrite rest
          end
      end
  end.

(** [updateDashboard(obj, overwrite)].  The Go function calls itself without
    a bound of its own; [fuel] is the depth of calls the model follows. *)
Fixpoint updateDashboard `{Env} (fuel : nat) (obj : Obj) (overwrite : bool) : M unit :=
  match fuel with
  | O => diverge
  | S fuel' =>
      cm ← asConfigMap obj;
      let labels := Labels cm in
      let upsert := λ folderID : Q,
        entries ← range (Data cm);
        updateDashboard_loop (updateDashboard fuel' obj true) cm folderID overwrite entries in
      if (String.eqb (mapIndex labels "general-folder") EmptyString
          || negb (String.eqb (ToLower (mapIndex labels "general-folder")) "true"))%bool
      then
        let annotations := Annotations cm in
        let folderTitle :=
          match annotations !! "observability.open-cluster-management.io/dashboard-folder" with
          | Some t => if String.eqb t EmptyString then "Custom" else t
          | None => "Custom"
          end in
        folderID ← createCustomFolder folderTitle;
        if Qeq_bool folderID 0
        then klog Error "Failed to get custom folder id"
        else upsert folderID
      else upsert 0%Q
  end.

(** The entries of [Data] and the loop over them, as [updateDashboard] runs
    them once the folder is known. *)
Abbreviation upsert_all fuel cm overwrite folderID :=
  (range (Data cm) ≫= updateDashboard_loop
     (updateDashboard fuel (ObjConfigMap (Some cm)) true) cm folderID overwrite).

(** The loop of [deleteDashboard]. *)
Fixpoint deleteDashboard_loop `{Env} (cm : ConfigMap)
    (entries : list (string * string)) : M unit :=
  match entries with
  | [] => ret tt
  | (_, value) :: rest =>
      match Unmarshal_map value with
      | None => klog Error "Failed to unmarshall data"
      | Some dashboard =>
          let uid := GenerateUID (Name cm) (Namespace cm) in
          uid ← (if negb (is_nil (dashboard !! "uid"))
                 then assert_string (dashboard !! "uid")
                 else ret uid);
          let grafanaURL := grafanaURI +:+ "/api/dashboards/uid/" +:+ uid in
          '(_, respStatusCode) ← request "DELETE" grafanaURL None retry;
          (if negb (respStatusCode =? StatusOK)
           then klog Error "failed to delete dashboard"
           else klog Info "Dashboard deleted");;
          deleteDashboard_loop cm rest
      end
  end.

Definition deleteDashboard `{Env} (obj : Obj) : M unit :=
  cm ← asConfigMap obj;
  entries ← range (Data cm);
  deleteDashboard_loop cm entries.

(** The two handlers of the informer that reach the engines with a new or a
    deleted object. *)
Definition AddFunc `{Env} (fuel : nat) (obj : Obj) : M unit :=
  if negb (isDesiredDashboardConfigmap obj) then ret tt
  else
    klog Info "detect there is a new dashboard created";;
    updateDashboard fuel obj false.

Definition DeleteFunc `{Env} (obj : Obj) : M unit :=
  if negb (isDesiredDashboardConfigmap obj) then ret tt
  else
    klog Info "detect there is a dashboard deleted";;
    deleteDashboard obj.

(** ** Reading a trace *)

Definition is_call (method url : string) (e : Event) : bool :=
  match e with
  | Call m u _ _ _ => (String.eqb m method && String.eqb u url)%bool
  | Log _ _ => false
  end.

Definition foldersURL : string := grafanaURI +:+ "/api/folders".
Definition dashboardsURL : string := grafanaURI +:+ "/api/dashboards/db".

(** The calls of a trace, without the log lines. *)
Definition is_a_call (e : Event) : bool :=
  match e with Call _ _ _ _ _ => true | Log _ _ => false end.

Definition calls (t : list Event) : list Event := List.filter is_a_call t.

(** A response that makes the upsert engine call itself. *)
Definition is_version_mismatch (resp : string) (status : Z) : bool :=
  (negb (status =? StatusOK) && (status =? StatusPreconditionFailed)
   && Contains resp "version-mismatch")%bool.

Definition is_mismatched_upsert (e : Event) : bool :=
  match e with
  | Call m u _ resp status =>
      (is_call "POST" dashboardsURL e && is_version_mismatch resp status)%bool
  | Log _ _ => false
  end.

(** The upserts of a trace that were answered with a version mismatch. *)
Definition mismatches (t : list Event) : nat :=
  length (List.filter is_mismatched_upsert t).

Definition count_calls (method url : string) (t : list Event) : nat :=
  length (List.filter (is_call method url) t).

(** ** Properties of runs *)

(** Every event a computation writes satisfies [Q]. *)
Definition always `{Env} {A} (Q : Event → Prop) (m : M A) : Prop :=
  ∀ w, Forall Q (trace (m w)).

(** A computation that does not stop for lack of fuel. *)
Definition terminates `{Env} {A} (m : M A) : Prop :=
  ∀ w, outcome (m w) ≠ OutOfFuel.

(** An event that, when it is a call, goes to the folders of the service. *)
Definition on_folders (e : Event) : Prop :=
  match e with
  | Call _ url _ _ _ => url = foldersURL
  | Log _ _ => True
  end.

(** An event that, when it is a call, does not go to the folders. *)
Definition off_folders (e : Event) : Prop :=
  match e with
  | Call _ url _ _ _ => url ≠ foldersURL
  | Log _ _ => True
  end.

(** ** The deletions of a resource, as the specification words them *)

(** The uid to delete for a parsed payload: its own uid if it has one, else
    the uid derived from the name and the namespace. *)
Definition delete_target `{Env} (cm : ConfigMap) (dashboard : GoMap)
  : string :=
  match dashboard !! "uid" with
  | Some (JString uid) => uid
  | _ => GenerateUID (Name cm) (Namespace cm)
  end.

Definition deleteURL (uid : string) : string :=
  grafanaURI +:+ "/api/dashboards/uid/" +:+ uid.

(** A payload past which the loop of [deleteDashboard] goes on: it parses,
    and its uid is absent, null or a string. *)
Definition deletable `{Env} (value : string) : Prop :=
  ∃ dashboard,
    Unmarshal_map value = Some dashboard
    ∧ (is_nil (dashboard !! "uid") = true
       ∨ ∃ uid, dashboard !! "uid" = Some (JString uid)).

Definition is_method (method : string) (e : Event) : bool :=
  match e with
  | Call m _ _ _ _ => String.eqb m method
  | Log _ _ => false
  end.

Definition count_method (method : string) (t : list Event) : nat :=
  length (List.filter (is_method method) t).

(** ** The folder of a resource, as the specification words it *)

Definition uses_general_folder (cm : ConfigMap) : Prop :=
  equal_ignoring_case (mapIndex (Labels cm) "general-folder") "true".

Global Instance uses_general_folder_dec cm : Decision (uses_general_folder cm).
Proof. unfold uses_general_folder. apply _. Defined.

Definition folder_title (cm : ConfigMap) : string :=
  match Annotations cm !! "observability.open-cluster-management.io/dashboard-folder" with
  | Some title => if decide (title = EmptyString) then "Custom" else title
  | None => "Custom"
  end.

(** The folder titled [folderTitle] that the loop of [hasCustomFolder] stops
    at, in the list which the service returned in state [w]. *)
Definition matched_in_list `{Env} (folderTitle : string) (w : World)
    (folder : GoMap) : Prop :=
  ∃ pre post,
    Unmarshal_maps (SetRequest "GET" foldersURL None retry w).1.1
      = Some (pre ++ folder :: post)
    ∧ Forall (λ f, title_is f folderTitle = false) pre
    ∧ title_is folder folderTitle = true.

(** The folder the service returned to the creation that follows a lookup
    with result 0. *)
Definition returned_by_creation `{Env} (folderTitle : string) (w : World)
    (folder : GoMap) : Prop :=
  ∃ id,
    outcome (hasCustomFolder folderTitle w) = Returned id
    ∧ Qeq_bool id 0 = true
    ∧ Unmarshal_map
        (SetRequest "POST" foldersURL
           (Some ("{" +:+ dq +:+ "title" +:+ dq +:+ ":" +:+ dq
                  +:+ folderTitle +:+ dq +:+ "}"))
           retry (final (hasCustomFolder folderTitle w))).1.1
      = Some folder.

(** ** The upserts of a trace, as the specification words them *)

(** The dashboard that is submitted for a parsed payload. *)
Definition submitted_for `{Env} (cm : ConfigMap) (dashboard : gmap string JSON)
  : gmap string JSON :=
  <["id" := JNull]>
    (if is_nil (dashboard !! "uid")
     then <["uid" := JString (GenerateUID (Name cm) (Namespace cm))]> dashboard
     else dashboard).

(** An event that, when it is an upsert, carries the payload of an entry of
    [Data] that parsed to a map, with its own uid, or with the derived uid
    when it has none, and with a null id, in a folder that satisfies [P]. *)
Definition upsert_well_formed `{Env} (cm : ConfigMap) (P : Q → Prop) (e : Event)
  : Prop :=
  match e with
  | Call method url body _ _ =>
      url = dashboardsURL →
      ∃ key value dashboard submitted folderID overwrite,
        Data cm !! key = Some value
        ∧ Unmarshal_map value = Some (a_map dashboard)
        ∧ is_Some body
        ∧ json_Marshal (upsertRequest folderID overwrite submitted) = body
        ∧ P folderID
        ∧ submitted !! "id" = Some JNull
        ∧ submitted !! "uid"
          = (if is_nil (dashboard !! "uid")
             then Some (JString (GenerateUID (Name cm) (Namespace cm)))
             else dashboard !! "uid")
        ∧ ∀ k, k ≠ "id" → k ≠ "uid" → submitted !! k = dashboard !! k
  | Log _ _ => True
  end.

(** A service that answers no version mismatch to an upsert that asks to
    overwrite. *)
Definition overwrite_never_mismatches `{Env} : Prop :=
  ∀ folderID dashboard b w,
    json_Marshal (upsertRequest folderID true dashboard) = Some b →
    is_version_mismatch
      (SetRequest "POST" dashboardsURL (Some b) retry w).1.1
      (SetRequest "POST" dashboardsURL (Some b) retry w).1.2 = false.

(** The line the upsert engine logs for an answer that is not a version
    mismatch. *)
Definition verdict (resp : string) (status : Z) : string :=
  if negb (status =? StatusOK) then
    if ((status =? StatusPreconditionFailed) && Contains resp "name-exists")%bool
    then "the dashboard name already existed"
    else "failed to create/update"
  else "Dashboard created/updated".

(** A run with one more event in front. *)
Definition after_event `{Env} {A} (e : Event) (r : Run A) : Run A :=
  MkRun (outcome r) (final r) (e :: trace r).

(** ** The handler of updates

    [reflect.DeepEqual] tells the nil map from a map without entries, which
    the record of a ConfigMap does not: the handler of updates takes each
    object with that bit. *)

Record Informed := { object : Obj; nil_data : bool }.

(** Whether [Data] is the nil map: it has no entries and the bit says so. *)
Definition data_is_nil (i : Informed) (cm : ConfigMap) : bool :=
  (nil_data i && bool_decide (Data cm = ∅))%bool.

(** [reflect.DeepEqual(old.Data, new.Data)] on two [map[string]string]. *)
Definition DeepEqual_Data (old : Informed) (oldcm : ConfigMap)
    (new : Informed) (newcm : ConfigMap) : bool :=
  match data_is_nil old oldcm, data_is_nil new newcm with
  | true, true => true
  | false, false => bool_decide (Data oldcm = Data newcm)
  | _, _ => false
  end.

Definition UpdateFunc `{Env} (fuel : nat) (old new : Informed) : M unit :=
  if negb (isDesiredDashboardConfigmap (object new)) then ret tt
  else
    oldcm ← asConfigMap (object old);
    newcm ← asConfigMap (object new);
    if negb (DeepEqual_Data old oldcm new newcm) then
      klog Info "detect there is a dashboard updated";;
      updateDashboard fuel (object new) false
    else ret tt.

(** ** More properties of runs *)

(** A payload that the loop of [updateDashboard] turns into a request: it
    parses to a map, and the request can be written. *)
Definition upsertable `{Env} (cm : ConfigMap) (folderID : Q) (overwrite : bool)
    (value : string) : Prop :=
  ∃ dashboard,
    Unmarshal_map value = Some (a_map dashboard)
    ∧ is_Some (json_Marshal
                 (upsertRequest folderID overwrite (submitted_for cm dashboard))).

(** The folder id and the state of the world with which the loop of
    [updateDashboard] starts, when the engine gets as far as the loop. *)
Definition after_folder `{Env} (cm : ConfigMap) (w : World) : option (Q * World) :=
  if decide (uses_general_folder cm) then Some (0%Q, w)
  else
    match outcome (createCustomFolder (folder_title cm) w) with
    | Returned id =>
        if Qeq_bool id 0 then None
        else Some (id, final (createCustomFolder (folder_title cm) w))
    | _ => None
    end.

Definition upserts (t : list Event) : nat := count_calls "POST" dashboardsURL t.

(** A payload at which the loop of [updateDashboard] stops: it does not
    parse, or it is [null], or its request cannot be written. *)
Definition stops_upsert `{Env} (cm : ConfigMap) (folderID : Q) (overwrite : bool)
    (value : string) : Prop :=
  match Unmarshal_map value with
  | None => True
  | Some nil_map => True
  | Some (a_map dashboard) =>
      json_Marshal (upsertRequest folderID overwrite (submitted_for cm dashboard)) = None
  end.

(** The title of a folder, as [createCustomFolder] writes it into the body
    of the request that creates it. *)
Definition folder_body (folderTitle : string) : string :=
  "{" +:+ dq +:+ "title" +:+ dq +:+ ":" +:+ dq +:+ folderTitle +:+ dq +:+ "}".

(** The calls of the folder resolver: the listing, and the creation of the
    folder with that title. *)
Definition folder_call (folderTitle : string) (e : Event) : Prop :=
  match e with
  | Call method url body _ _ =>
      url = foldersURL
      ∧ ((method = "GET" ∧ body = None)
         ∨ (method = "POST" ∧ body = Some (folder_body folderTitle)))
  | Log _ _ => True
  end.

(** The calls of the upsert engine: to the folders, and the upserts. *)
Definition engine_call (e : Event) : Prop :=
  match e with
  | Call method url body _ _ =>
      (method = "GET" ∧ url = foldersURL ∧ body = None)
      ∨ (method = "POST" ∧ url = foldersURL ∧ is_Some body)
      ∨ (method = "POST" ∧ url = dashboardsURL ∧ is_Some body)
  | Log _ _ => True
  end.

(** An event that, when it is an upsert, asks to overwrite. *)
Definition asks_overwrite `{Env} (e : Event) : Prop :=
  match e with
  | Call _ url body _ _ =>
      url = dashboardsURL →
      ∃ folderID dashboard,
        is_Some body ∧ json_Marshal (upsertRequest folderID true dashboard) = body
  | Log _ _ => True
  end.

(** An event that, when it is a call, deletes the dashboard of a payload of
    [Data]. *)
Definition delete_of `{Env} (cm : ConfigMap) (e : Event) : Prop :=
  match e with
  | Call method url body _ _ =>
      method = "DELETE" ∧ body = None
      ∧ ∃ key value dashboard,
          Data cm !! key = Some value
          ∧ Unmarshal_map value = Some dashboard
          ∧ url = deleteURL (delete_target cm dashboard)
  | Log _ _ => True
  end.

(** An upsert of a dashboard whose uid the deletion of [cm] asks to delete,
    in every state of the world. *)
Definition undone_by_delete `{Env} (cm : ConfigMap) (e : Event) : Prop :=
  match e with
  | Call _ url body _ _ =>
      url = dashboardsURL →
      ∃ folderID overwrite submitted uid,
        is_Some body
        ∧ json_Marshal (upsertRequest folderID overwrite submitted) = body
        ∧ submitted !! "uid" = Some (JString uid)
        ∧ ∀ w, ∃ resp status,
            Call "DELETE" (deleteURL uid) None resp status
            ∈ trace (deleteDashboard (ObjConfigMap (Some cm)) w)
  | Log _ _ => True
  end.

(** The events of the folder resolution with which a run of
    [updateDashboard] starts: none in the general folder. *)
Definition folder_events `{Env} (cm : ConfigMap) (w : World) : list Event :=
  if decide (uses_general_folder cm) then []
  else trace (createCustomFolder (folder_title cm) w).

(** A computation whose panics all carry one of the messages [msgs]. *)
Definition panics_within `{Env} {A} (msgs : list string) (m : M A) : Prop :=
  ∀ w msg, outcome (m w) = Panicked msg → msg ∈ msgs.

Definition not_float64 : string := "interface conversion: interface {} is not float64".
Definition not_string : string := "interface conversion: interface {} is not string".
Definition nil_map_write : string := "assignment to entry in nil map".

(** ** A concrete outside world, for the examples

    A reader and a writer for the JSON texts that occur in the examples
    (objects, arrays, strings with the escapes of the quote and the
    backslash, integers, booleans and null), a Grafana that keeps folders as
    section 6 of the specification describes them and answers upserts from a
    script, and a runtime that visits a map by ascending key. *)

Module Demo.

Definition is_ws (c : ascii) : bool :=
  let n := nat_of_ascii c in
  (Nat.eqb n 32 || Nat.eqb n 9 || Nat.eqb n 10 || Nat.eqb n 13)%bool.

Fixpoint skip_ws (s : string) : string :=
  match s with
  | String c r => if is_ws c then skip_ws r else s
  | EmptyString => s
  end.

Definition is_digit (c : ascii) : bool :=
  let n := nat_of_ascii c in (Nat.leb 48 n && Nat.leb n 57)%bool.

Fixpoint read_digits (acc : Z) (s : string) : Z * string :=
  match s with
  | String c r =>
      if is_digit c
      then read_digits (10 * acc + Z.of_nat (nat_of_ascii c - 48)) r
      else (acc, s)
  | EmptyString => (acc, s)
  end.

(** The characters of a string, after its opening quote. *)
Fixpoint read_string (s : string) : option (string * string) :=
  match s with
  | EmptyString => None
  | String c r =>
      if Ascii.eqb c (ascii_of_nat 34) then Some (EmptyString, r)
      else if Ascii.eqb c (ascii_of_nat 92) then
        match r with
        | String e r' =>
            if (Ascii.eqb e (ascii_of_nat 34) || Ascii.eqb e (ascii_of_nat 92))%bool
            then match read_string r' with
                 | Some (t, rest) => Some (String e t, rest)
                 | None => None
                 end
            else None
        | EmptyString => None
        end
      else if Nat.ltb (nat_of_ascii c) 32 then None
      else match read_string r with
           | Some (t, rest) => Some (String c t, rest)
           | None => None
           end
  end.

Definition read_literal (lit : string) (v : JSON) (s : string) : option (JSON * string) :=
  if String.prefix lit s
  then Some (v, String.substring (String.length lit)
                                 (String.length s - String.length lit) s)
  else None.

Definition read_number (s : string) : option (JSON * string) :=
  let '(neg, s1) :=
    match s with
    | String "-" r => (true, r)
    | _ => (false, s)
    end in
  match s1 with
  | String c _ =>
      if is_digit c then
        let '(n, rest) := read_digits 0 s1 in
        match rest with
        | String "." _ | String "e" _ | String "E" _ => None
        | _ => Some (JNumber (inject_Z (if neg then - n else n)), rest)
        end
      else None
  | EmptyString => None
  end.

Fixpoint read_value (fuel : nat) (s : string) {struct fuel} : option (JSON * string) :=
  match fuel with
  | O => None
  | S fuel =>
      match skip_ws s with
      | EmptyString => None
      | String c r =>
          if Ascii.eqb c (ascii_of_nat 34) then
            match read_string r with
            | Some (t, rest) => Some (JString t, rest)
            | None => None
            end
          else if Ascii.eqb c "{" then
            match skip_ws r with
            | String "}" rest => Some (JObject [], rest)
            | _ => match read_members fuel r with
                   | Some (fields, rest) => Some (JObject fields, rest)
                   | None => None
                   end
            end
          else if Ascii.eqb c "[" then
            match skip_ws r with
            | String "]" rest => Some (JArray [], rest)
            | _ => match read_elements fuel r with
                   | Some (items, rest) => Some (JArray items, rest)
                   | None => None
                   end
            end
          else if Ascii.eqb c "n" then read_literal "null" JNull (String c r)
          else if Ascii.eqb c "t" then read_literal "true" (JBool true) (String c r)
          else if Ascii.eqb c "f" then read_literal "false" (JBool false) (String c r)
          else read_number (String c r)
      end
  end
with read_members (fuel : nat) (s : string) {struct fuel}
  : option (list (string * JSON) * string) :=
  match fuel with
  | O => None
  | S fuel =>
      match skip_ws s with
      | String c r =>
          if Ascii.eqb c (ascii_of_nat 34) then
            match read_string r with
            | Some (k, r1) =>
                match skip_ws r1 with
                | String ":" r2 =>
                    match read_value fuel r2 with
                    | Some (v, r3) =>
                        match skip_ws r3 with
                        | String "," r4 =>
                            match read_members fuel r4 with
                            | Some (fields, r5) => Some ((k, v) :: fields, r5)
                            | None => None
                            end
                        | String "}" r4 => Some ([(k, v)], r4)
                        | _ => None
                        end
                    | None => None
                    end
                | _ => None
                end
            | None => None
            end
          else None
      | EmptyString => None
      end
  end
with read_elements (fuel : nat) (s : string) {struct fuel}
  : option (list JSON * string) :=
  match fuel with
  | O => None
  | S fuel =>
      match read_value fuel s with
      | Some (v, r1) =>
          match skip_ws r1 with
          | String "," r2 =>
              match read_elements fuel r2 with
              | Some (items, r3) => Some (v :: items, r3)
              | None => None
              end
          | String "]" r2 => Some ([v], r2)
          | _ => None
          end
      | None => None
      end
  end.

Definition read_json (text : string) : option JSON :=
  match read_value (2 * String.length text + 2) text with
  | Some (v, rest) =>
      match skip_ws rest with
      | EmptyString => Some v
      | _ => None
      end
  | None => None
  end.

Fixpoint write_string (s : string) : string :=
  match s with
  | EmptyString => EmptyString
  | String c r =>
      if (Ascii.eqb c (ascii_of_nat 34) || Ascii.eqb c (ascii_of_nat 92))%bool
      then String (ascii_of_nat 92) (String c (write_string r))
      else String c (write_string r)
  end.

Definition quoted (s : string) : string := dq +:+ write_string s +:+ dq.

Fixpoint write_json (v : JSON) : option string :=
  match v with
  | JNull => Some "null"
  | JBool true => Some "true"
  | JBool false => Some "false"
  | JNumber x =>
      if Pos.eqb (Qden x) 1 then Some (pretty (Qnum x)) else None
  | JString s => Some (quoted s)
  | JArray items =>
      let fix go (l : list JSON) : option string :=
        match l with
        | [] => Some EmptyString
        | [x] => write_json x
        | x :: l' =>
            match write_json x, go l' with
            | Some a, Some b => Some (a +:+ "," +:+ b)
            | _, _ => None
            end
        end in
      match go items with
      | Some body => Some ("[" +:+ body +:+ "]")
      | None => None
      end
  | JObject fields =>
      let fix go (l : list (string * JSON)) : option string :=
        match l with
        | [] => Some EmptyString
        | [(k, x)] =>
            match write_json x with
            | Some a => Some (quoted k +:+ ":" +:+ a)
            | None => None
            end
        | (k, x) :: l' =>
            match write_json x, go l' with
            | Some a, Some b => Some (quoted k +:+ ":" +:+ a +:+ "," +:+ b)
            | _, _ => None
            end
        end in
      match go fields with
      | Some body => Some ("{" +:+ body +:+ "}")
      | None => None
      end
  end.

(** A JSON text written with apostrophes in place of double quotes. *)
Fixpoint js (s : string) : string :=
  match s with
  | EmptyString => EmptyString
  | String c r =>
      String (if Ascii.eqb c "'" then ascii_of_nat 34 else c) (js r)
  end.

(** The dashboard service, after the table of section 6 of the
    specification: the folders it holds, each with the id it was given, and
    the answers it will give to the next upserts (when none is left, an
    upsert succeeds). *)
Record Grafana := {
  folders : list (Z * string);
  answers : list (string * Z)
}.

Definition fresh : Grafana := {| folders := []; answers := [] |}.

Definition folder_json (f : Z * string) : JSON :=
  JObject [("id", JNumber (inject_Z f.1)); ("title", JString f.2)].

Definition text_of (v : JSON) : string := default EmptyString (write_json v).

Definition bad_request : string * Z :=
  (text_of (JObject [("message", JString "bad request data")]), 400).

Definition serve (method url : string) (body : option string) (retry : Z)
    (g : Grafana) : (string * Z) * Grafana :=
  if (String.eqb method "GET" && String.eqb url foldersURL)%bool then
    ((text_of (JArray (folder_json <$> folders g)), 200), g)
  else if (String.eqb method "POST" && String.eqb url foldersURL)%bool then
    match body ≫= read_json with
    | Some (JObject fields) =>
        match fields_to_map fields !! "title" with
        | Some (JString title) =>
            let f := (Z.of_nat (length (folders g)) + 1, title) in
            ((text_of (folder_json f), 200),
             {| folders := folders g ++ [f]; answers := answers g |})
        | _ => (bad_request, g)
        end
    | _ => (bad_request, g)
    end
  else if (String.eqb method "POST" && String.eqb url dashboardsURL)%bool then
    match answers g with
    | a :: rest => (a, {| folders := folders g; answers := rest |})
    | [] => ((text_of (JObject [("status", JString "success")]), 200), g)
    end
  else if (String.eqb method "DELETE"
           && String.prefix (grafanaURI +:+ "/api/dashboards/uid/") url)%bool then
    ((text_of (JObject [("message", JString "Dashboard deleted")]), 200), g)
  else ((EmptyString, 404), g).

Definition entry_le (a b : string * string) : Prop := String.leb a.1 b.1 = true.

Global Instance entry_le_dec a b : Decision (entry_le a b).
Proof. unfold entry_le. apply _. Defined.

(** A runtime that visits a map by ascending key. *)
Definition by_key (m : gmap string string) (g : Grafana)
  : list (string * string) * Grafana :=
  (merge_sort entry_le (map_to_list m), g).

Definition env : Env := {|
  World := Grafana;
  SetRequest := serve;
  GenerateUID := λ name namespace, name +:+ "-" +:+ namespace;
  json_decode := read_json;
  json_Marshal := write_json;
  mapRange := by_key;
  mapRange_perm := λ m g, merge_sort_Permutation entry_le (map_to_list m)
|}.

(** The answers of the service to an upsert. *)
Definition version_mismatch : string * Z :=
  (text_of (JObject [("message", JString "The dashboard has been changed by someone else");
                     ("status", JString "version-mismatch")]), 412).

Definition name_exists : string * Z :=
  (text_of (JObject [("message", JString "A dashboard with the same name in the folder already exists");
                     ("status", JString "name-exists")]), 412).

(** The resource of the end-to-end scenario of section 8, here in the
    general folder. *)
Definition acme (labels : gmap string string) (data : gmap string string)
  : ConfigMap :=
  {| Name := "acme-grafana-dashboard";
     Namespace := "ns1";
     Labels := labels;
     Annotations := ∅;
     OwnerReferences := [];
     Data := data |}.

Definition acme_obj (labels data : gmap string string) : Obj :=
  ObjConfigMap (Some (acme labels data)).

Definition custom : gmap string string :=
  {[ "grafana-custom-dashboard" := "true" ]}.

Definition general : gmap string string :=
  {[ "grafana-custom-dashboard" := "true"; "general-folder" := "true" ]}.

(** A service that plays a script: each call is answered with the next
    answer of the list, whatever it asks, and with 404 once the list is
    empty. *)
Definition play (method url : string) (body : option string) (retry : Z)
    (script : list (string * Z)) : (string * Z) * list (string * Z) :=
  match script with
  | a :: rest => (a, rest)
  | [] => ((EmptyString, 404), [])
  end.

Definition scripted : Env := {|
  World := list (string * Z);
  SetRequest := play;
  GenerateUID := λ name namespace, name +:+ "-" +:+ namespace;
  json_decode := read_json;
  json_Marshal := write_json;
  mapRange := λ m script, (merge_sort entry_le (map_to_list m), script);
  mapRange_perm := λ m script, merge_sort_Permutation entry_le (map_to_list m)
|}.

(** A Grafana whose dashboards someone else keeps changing: it refuses with
    a version mismatch every upsert that does not ask to overwrite. *)
Definition asks_to_overwrite (body : option string) : bool :=
  match body with
  | Some b => Contains b (quoted "overwrite" +:+ ":true")
  | None => false
  end.

Definition serve_contended (method url : string) (body : option string)
    (retry : Z) (g : Grafana) : (string * Z) * Grafana :=
  if (String.eqb method "POST" && String.eqb url dashboardsURL)%bool then
    if asks_to_overwrite body
    then ((text_of (JObject [("status", JString "success")]), 200), g)
    else (version_mismatch, g)
  else serve method url body retry g.

Definition contended : Env := {|
  World := Grafana;
  SetRequest := serve_contended;
  GenerateUID := λ name namespace, name +:+ "-" +:+ namespace;
  json_decode := read_json;
  json_Marshal := write_json;
  mapRange := by_key;
  mapRange_perm := λ m g, merge_sort_Permutation entry_le (map_to_list m)
|}.

(** The data of the examples. *)
Definition one_dashboard : gmap string string :=
  {[ "d1" := js "{'title':'A'}" ]}.

Definition two_dashboards : gmap string string :=
  {[ "d1" := js "{'title':'A'}"; "d2" := js "{'title':'B','uid':'b-uid','id':7}" ]}.


Definition good_then_numeric_uid : gmap string string :=
  {[ "a" := js "{'title':'A','uid':'a-uid'}"; "b" := js "{'title':'B','uid':5}";
     "c" := js "{'title':'C'}" ]}.

(** A folder title that closes the string it is pasted into. *)
Definition injected_title : string := js "a','x':'b".

Definition with_folder (title : string) (cm : ConfigMap) : ConfigMap :=
  {| Name := Name cm;
     Namespace := Namespace cm;
     Labels := Labels cm;
     Annotations :=
       {[ "observability.open-cluster-management.io/dashboard-folder" := title ]};
     OwnerReferences := OwnerReferences cm;
     Data := Data cm |}.

Definition owned (name kind : string) : ConfigMap :=
  {| Name := name;
     Namespace := "ns1";
     Labels := ∅;
     Annotations := ∅;
     OwnerReferences := [{| Kind := kind; OwnerName := "observability" |}];
     Data := ∅ |}.

End Demo.

(** * Theorems *)

(** ** Strings *)

Lemma app_String (c : ascii) (s t : string) :
  String c s +:+ t = String c (s +:+ t).
Proof. reflexivity. Qed.

Lemma app_Empty (t : string) : EmptyString +:+ t = t.
Proof. reflexivity. Qed.

Lemma prefix_app (sub s : string) :
  String.prefix sub s = true ↔ ∃ post, s = sub +:+ post.
Proof.
  revert s. induction sub as [|c sub IH]; intros s.
  - destruct s; simpl; split; eauto.
  - destruct s as [|d s]; simpl.
    + split; [discriminate | intros [post Hp]; discriminate].
    + setoid_rewrite app_String.
      destruct (Ascii.ascii_dec c d) as [->|Hne].
      * rewrite IH. split; intros [post Hp]; exists post; congruence.
      * split; [discriminate | intros [post Hp]; congruence].
Qed.

Lemma Contains_substring (s sub : string) :
  Contains s sub = true ↔ is_substring sub s.
Proof.
  unfold is_substring. induction s as [|c s IH]; cbn [Contains].
  - rewrite orb_false_r, prefix_app. split.
    + intros [post Hp]. exists EmptyString, post. done.
    + intros (pre & post & Hp). destruct pre; [eauto | discriminate].
  - rewrite orb_true_iff, prefix_app, IH. split.
    + intros [[post Hp] | (pre & post & Hp)].
      * exists EmptyString, post. done.
      * exists (String c pre), post. rewrite app_String. by rewrite Hp.
    + intros (pre & post & Hp). destruct pre as [|d pre].
      * left. eauto.
      * right. exists pre, post. rewrite app_String in Hp. congruence.
Qed.

Lemma lower_ascii_letter (c d : ascii) :
  d ∈ ["t"; "r"; "u"; "e"]%char → lower_ascii c = d ↔ same_letter c d.
Proof.
  intros Hd.
  assert (bool_decide (lower_ascii c = d ↔ same_letter c d) = true) as Hb;
    [|by apply bool_decide_eq_true in Hb].
  repeat (apply elem_of_cons in Hd as [->|Hd]); [..|by apply elem_of_nil in Hd];
    destruct c as [[] [] [] [] [] [] [] []]; vm_compute; reflexivity.
Qed.

Lemma ToLower_true (s : string) :
  ToLower s = "true" ↔ equal_ignoring_case s "true".
Proof.
  destruct s as [|c1 [|c2 [|c3 [|c4 [|c5 s]]]]]; simpl;
    try (split; [discriminate | tauto]).
  rewrite <- !lower_ascii_letter by (repeat constructor).
  split.
  - intros [= -> -> -> ->]. done.
  - intros (-> & -> & -> & -> & _). done.
Qed.

(** ** The selection filter *)

(** C5: the filter accepts an object exactly when it is a ConfigMap whose
    label grafana-custom-dashboard is "true" up to case, or whose name
    contains "grafana-dashboard" and one of whose owner references has kind
    MultiClusterObservability; everything else is rejected. *)
Theorem isDesiredDashboardConfigmap_iff (obj : Obj) :
  isDesiredDashboardConfigmap obj = true
  ↔ ∃ cm, obj = ObjConfigMap (Some cm) ∧ IsManaged cm.
Proof.
  destruct obj as [[cm|]|]; simpl.
  2,3: split; [discriminate | intros (cm & Hcm & _); discriminate].
  assert (IsManaged cm ↔
          (∃ cm', ObjConfigMap (Some cm) = ObjConfigMap (Some cm') ∧ IsManaged cm'))
    as <-.
  { split; [eauto | by intros (cm' & [= <-] & Hm)]. }
  unfold IsManaged. rewrite <- ToLower_true, <- Contains_substring.
  destruct (String.eqb_spec
              (ToLower (mapIndex (Labels cm) "grafana-custom-dashboard")) "true")
    as [Heq|Hne].
  - split; auto.
  - rewrite existsb_exists. split.
    + intros (owner & Hin & Hb). apply andb_true_iff in Hb as [Hc Hk].
      right. split; [done|].
      exists owner. split; [by apply list_elem_of_In|by apply String.eqb_eq].
    + intros [Hl | (Hc & owner & Hin & Hk)]; [done|].
      exists owner. split; [by apply list_elem_of_In|].
      rewrite Hc. by apply String.eqb_eq.
Qed.

(** ** Runs of the monad *)

Section Engines.
Context `{Env}.

Lemma bind_run {A B} (m : M A) (f : A → M B) (w : World) :
  (m ≫= f) w =
  match outcome (m w) with
  | Returned a =>
      MkRun (outcome (f a (final (m w)))) (final (f a (final (m w))))
            (trace (m w) ++ trace (f a (final (m w))))
  | Panicked msg => MkRun (Panicked msg) (final (m w)) (trace (m w))
  | OutOfFuel => MkRun OutOfFuel (final (m w)) (trace (m w))
  end.
Proof. reflexivity. Qed.

Lemma run_eta {A} (r : Run A) : MkRun (outcome r) (final r) (trace r) = r.
Proof. by destruct r. Qed.

Lemma trace_bind {A B} (m : M A) (f : A → M B) (w : World) :
  trace ((m ≫= f) w) =
  trace (m w) ++
  match outcome (m w) with
  | Returned a => trace (f a (final (m w)))
  | _ => []
  end.
Proof. rewrite bind_run. destruct (outcome (m w)); simpl; by rewrite ?app_nil_r. Qed.

Lemma outcome_bind {A B} (m : M A) (f : A → M B) (w : World) :
  outcome ((m ≫= f) w) =
  match outcome (m w) with
  | Returned a => outcome (f a (final (m w)))
  | Panicked msg => Panicked msg
  | OutOfFuel => OutOfFuel
  end.
Proof. rewrite bind_run. by destruct (outcome (m w)). Qed.

Lemma bind_ret_l {A B} (a : A) (f : A → M B) (w : World) :
  (ret a ≫= f) w = f a w.
Proof. rewrite bind_run. simpl. apply run_eta. Qed.

Lemma always_ret {A} Q (a : A) : always Q (ret a).
Proof. intros w. constructor. Qed.

Lemma always_panic {A} Q msg : always Q (panic (A := A) msg).
Proof. intros w. constructor. Qed.

Lemma always_diverge {A} Q : always Q (diverge (A := A)).
Proof. intros w. constructor. Qed.

Lemma always_range Q m : always Q (range m).
Proof. intros w. unfold range. destruct (mapRange m w). constructor. Qed.

Lemma always_klog Q severity msg : Q (Log severity msg) → always Q (klog severity msg).
Proof. intros HQ w. by repeat constructor. Qed.

Lemma always_request Q method url body n :
  (∀ resp status, Q (Call method url body resp status)) →
  always Q (request method url body n).
Proof.
  intros HQ w. unfold request. destruct (SetRequest method url body n w) as [[resp status] w'].
  by repeat constructor.
Qed.

Lemma always_bind {A B} Q (m : M A) (f : A → M B) :
  always Q m → (∀ a, always Q (f a)) → always Q (m ≫= f).
Proof.
  intros Hm Hf w. rewrite trace_bind. apply Forall_app. split; [apply Hm|].
  destruct (outcome (m w)); [apply Hf | constructor..].
Qed.

Lemma always_assert_float64 Q v : always Q (assert_float64 v).
Proof. destruct v as [[]|]; simpl; auto using always_ret, always_panic. Qed.

Lemma always_assert_string Q v : always Q (assert_string v).
Proof. destruct v as [[]|]; simpl; auto using always_ret, always_panic. Qed.

Lemma always_asConfigMap Q obj : always Q (asConfigMap obj).
Proof. destruct obj as [[]|]; simpl; auto using always_ret, always_panic. Qed.

(** ** The folder resolver *)

Lemma hasCustomFolder_loop_silent title folders w :
  trace (hasCustomFolder_loop title folders w) = []
  ∧ final (hasCustomFolder_loop title folders w) = w.
Proof.
  induction folders as [|folder rest IH]; simpl; [done|].
  destruct (title_is folder title); [|done].
  by destruct (folder !! "id") as [[]|].
Qed.

Lemma hasCustomFolder_on_folders title : always on_folders (hasCustomFolder title).
Proof.
  apply always_bind; [by apply always_request|].
  intros [body status]. destruct (Unmarshal_maps body) as [folders|].
  - intros w. by rewrite (proj1 (hasCustomFolder_loop_silent _ _ _)).
  - apply always_bind; [by apply always_klog | intros; apply always_ret].
Qed.

Lemma createCustomFolder_on_folders title : always on_folders (createCustomFolder title).
Proof.
  apply always_bind; [apply hasCustomFolder_on_folders|].
  intros id. destruct (Qeq_bool id 0); [|apply always_ret].
  apply always_bind; [by apply always_request|].
  intros [body status]. destruct (Unmarshal_map body).
  - apply always_assert_float64.
  - apply always_bind; [by apply always_klog | intros; apply always_ret].
Qed.

Lemma count_calls_app method url t1 t2 :
  count_calls method url (t1 ++ t2)
  = (count_calls method url t1 + count_calls method url t2)%nat.
Proof. unfold count_calls. by rewrite List.filter_app, length_app. Qed.

Lemma mismatches_app t1 t2 :
  mismatches (t1 ++ t2) = (mismatches t1 + mismatches t2)%nat.
Proof. unfold mismatches. by rewrite List.filter_app, length_app. Qed.

Lemma filter_none {A} (c : A → bool) (Q : A → Prop) (l : list A) :
  (∀ x, Q x → c x = false) → Forall Q l → List.filter c l = [].
Proof.
  intros Hc. induction 1 as [|x l Hx Hl IH]; simpl; [done|].
  by rewrite (Hc x Hx).
Qed.

Lemma on_folders_no_upsert e method : on_folders e → is_call method dashboardsURL e = false.
Proof.
  destruct e as [m u b r s|]; simpl; [|done]. intros ->.
  by rewrite andb_false_r.
Qed.

Lemma on_folders_no_mismatch e : on_folders e → is_mismatched_upsert e = false.
Proof.
  destruct e as [m u b r s|]; simpl; [|done]. intros ->.
  by rewrite andb_false_r.
Qed.

Lemma hasCustomFolder_one_GET title w :
  count_calls "GET" foldersURL (trace (hasCustomFolder title w)) = 1%nat.
Proof.
  unfold hasCustomFolder. rewrite trace_bind, count_calls_app.
  unfold request at 1 2 3. fold foldersURL.
  destruct (SetRequest "GET" foldersURL None retry w) as [[body status] w1]; simpl.
  destruct (Unmarshal_maps body) as [folders|].
  - by rewrite (proj1 (hasCustomFolder_loop_silent _ _ _)).
  - done.
Qed.

Lemma createCustomFolder_one_GET title w :
  count_calls "GET" foldersURL (trace (createCustomFolder title w)) = 1%nat.
Proof.
  unfold createCustomFolder. rewrite trace_bind, count_calls_app, hasCustomFolder_one_GET.
  destruct (outcome (hasCustomFolder title w)) as [id| |]; [|done..].
  destruct (Qeq_bool id 0); [|done].
  rewrite trace_bind, count_calls_app. unfold request at 1 2 3.
  destruct (SetRequest _ _ _ _ _) as [[body status] w1]; simpl.
  destruct (Unmarshal_map body) as [folder|]; [|done].
  by destruct (folder !! "id") as [[]|].
Qed.

Lemma createCustomFolder_no_upsert title w method :
  count_calls method dashboardsURL (trace (createCustomFolder title w)) = 0%nat.
Proof.
  unfold count_calls.
  by rewrite (filter_none _ on_folders _ (λ e, on_folders_no_upsert e method)
                (createCustomFolder_on_folders title w)).
Qed.

Lemma createCustomFolder_no_mismatch title w :
  mismatches (trace (createCustomFolder title w)) = 0%nat.
Proof.
  unfold mismatches.
  by rewrite (filter_none _ on_folders _ on_folders_no_mismatch
                (createCustomFolder_on_folders title w)).
Qed.

(** The test of [updateDashboard] on the label general-folder. *)
Lemma general_folder_test cm :
  (String.eqb (mapIndex (Labels cm) "general-folder") EmptyString
   || negb (String.eqb (ToLower (mapIndex (Labels cm) "general-folder")) "true"))%bool
  = false ↔ uses_general_folder cm.
Proof.
  unfold uses_general_folder. rewrite <- ToLower_true.
  destruct (String.eqb_spec (mapIndex (Labels cm) "general-folder") EmptyString) as [->|];
    simpl; [done|].
  destruct (String.eqb_spec (ToLower (mapIndex (Labels cm) "general-folder")) "true");
    simpl; split; done.
Qed.

Lemma folder_title_test cm :
  match Annotations cm !! "observability.open-cluster-management.io/dashboard-folder" with
  | Some t => if String.eqb t EmptyString then "Custom" else t
  | None => "Custom"
  end = folder_title cm.
Proof.
  unfold folder_title. destruct (_ !! _) as [t|]; [|done].
  destruct (String.eqb_spec t EmptyString); by case_decide.
Qed.

Lemma hasCustomFolder_loop_match title pre folder post :
  Forall (λ f, title_is f title = false) pre →
  title_is folder title = true →
  hasCustomFolder_loop title (pre ++ folder :: post) = assert_float64 (folder !! "id").
Proof.
  intros Hpre Hf. induction Hpre as [|f pre Hx _ IH]; simpl.
  - by rewrite Hf.
  - by rewrite Hx.
Qed.

Lemma assert_float64_panics (v : option JSON) w :
  (∀ x, v ≠ Some (JNumber x)) →
  ∃ msg, outcome (assert_float64 v w) = Panicked msg.
Proof.
  intros Hv. destruct v as [[| |x| | |]|]; simpl; eauto.
  by destruct (Hv x).
Qed.

(** C10: the folder resolver is not total.  When the folder that the lookup
    matches by title, or the folder that the service returns to the
    creation, has no "id" or an "id" that is not a number, the type assertion
    to float64 panics: [createCustomFolder] does not return the sentinel 0
    (and in the first case [hasCustomFolder] panics as well). *)
Theorem folder_without_numeric_id_panics (folderTitle : string) (w : World)
    (folder : GoMap) :
  (∀ x, folder !! "id" ≠ Some (JNumber x)) →
  matched_in_list folderTitle w folder ∨ returned_by_creation folderTitle w folder →
  (∃ msg, outcome (createCustomFolder folderTitle w) = Panicked msg)
  ∧ (matched_in_list folderTitle w folder →
     ∃ msg, outcome (hasCustomFolder folderTitle w) = Panicked msg).
Proof.
  intros Hid Hcase.
  assert (matched_in_list folderTitle w folder →
          ∃ msg, outcome (hasCustomFolder folderTitle w) = Panicked msg) as Hhas.
  { intros (pre & post & Hlist & Hpre & Hf).
    unfold hasCustomFolder. rewrite outcome_bind. unfold request.
    unfold foldersURL in Hlist.
    destruct (SetRequest "GET" _ None retry w) as [[body status] w1]; simpl in *.
    rewrite Hlist, (hasCustomFolder_loop_match _ _ _ _ Hpre Hf).
    by apply assert_float64_panics. }
  split; [|done].
  destruct Hcase as [Hm | (id & Hhas0 & Hzero & Hnew)].
  - destruct (Hhas Hm) as [msg Hmsg]. exists msg.
    unfold createCustomFolder. by rewrite outcome_bind, Hmsg.
  - unfold createCustomFolder. rewrite outcome_bind, Hhas0, Hzero, outcome_bind.
    unfold request. unfold foldersURL in Hnew.
    destruct (SetRequest "POST" _ _ retry _) as [[body status] w1]; simpl in *.
    rewrite Hnew. by apply assert_float64_panics.
Qed.

(** ** The upsert engine *)

Lemma updateDashboard_general fuel cm overwrite w :
  uses_general_folder cm →
  updateDashboard (S fuel) (ObjConfigMap (Some cm)) overwrite w
  = upsert_all fuel cm overwrite 0%Q w.
Proof.
  intros Hg. apply general_folder_test in Hg.
  cbn [updateDashboard asConfigMap]. rewrite bind_ret_l. by rewrite Hg.
Qed.

Lemma updateDashboard_folder fuel cm overwrite w :
  ¬ uses_general_folder cm →
  updateDashboard (S fuel) (ObjConfigMap (Some cm)) overwrite w
  = (createCustomFolder (folder_title cm) ≫= λ folderID,
       if Qeq_bool folderID 0
       then klog Error "Failed to get custom folder id"
       else upsert_all fuel cm overwrite folderID) w.
Proof.
  intros Hg. rewrite <- general_folder_test in Hg. apply not_false_is_true in Hg.
  cbn [updateDashboard asConfigMap]. rewrite bind_ret_l. rewrite Hg.
  by rewrite folder_title_test.
Qed.

(** C7: when the resource needs a folder and the resolver yields id 0, the
    upsert stops there: the run is the folder resolution followed by one
    error line, whatever [Data] holds, so no upsert request is sent and the
    engine does not call itself again. *)
Theorem folder_id_zero_aborts (fuel : nat) (cm : ConfigMap) (overwrite : bool)
    (w : World) (id : Q) :
  ¬ uses_general_folder cm →
  outcome (createCustomFolder (folder_title cm) w) = Returned id →
  Qeq_bool id 0 = true →
  updateDashboard (S fuel) (ObjConfigMap (Some cm)) overwrite w
  = MkRun (Returned tt)
          (final (createCustomFolder (folder_title cm) w))
          (trace (createCustomFolder (folder_title cm) w)
             ++ [Log Error "Failed to get custom folder id"])
  ∧ count_calls "POST" dashboardsURL
      (trace (updateDashboard (S fuel) (ObjConfigMap (Some cm)) overwrite w)) = 0%nat.
Proof.
  intros Hg Hid Hzero.
  assert (updateDashboard (S fuel) (ObjConfigMap (Some cm)) overwrite w
          = MkRun (Returned tt)
              (final (createCustomFolder (folder_title cm) w))
              (trace (createCustomFolder (folder_title cm) w)
                 ++ [Log Error "Failed to get custom folder id"])) as Heq.
  { rewrite updateDashboard_folder by done. rewrite bind_run, Hid, Hzero. done. }
  split; [done|]. rewrite Heq. simpl.
  by rewrite count_calls_app, createCustomFolder_no_upsert.
Qed.

Lemma always_mono {A} (Q Q' : Event → Prop) (m : M A) :
  (∀ e, Q e → Q' e) → always Q m → always Q' m.
Proof. intros HQ Hm w. eapply Forall_impl; [apply Hm | done]. Qed.

Lemma foldersURL_not_dashboardsURL : foldersURL ≠ dashboardsURL.
Proof. by vm_compute. Qed.

Lemma on_folders_well_formed cm P e : on_folders e → upsert_well_formed cm P e.
Proof.
  destruct e as [m u b r s|]; simpl; [|done].
  intros -> Hu. by destruct foldersURL_not_dashboardsURL.
Qed.

Lemma submitted_for_id cm dashboard : submitted_for cm dashboard !! "id" = Some JNull.
Proof. unfold submitted_for. apply lookup_insert_eq. Qed.

Lemma submitted_for_uid cm dashboard :
  submitted_for cm dashboard !! "uid"
  = if is_nil (dashboard !! "uid")
    then Some (JString (GenerateUID (Name cm) (Namespace cm)))
    else dashboard !! "uid".
Proof.
  unfold submitted_for. rewrite lookup_insert_ne by done.
  destruct (is_nil (dashboard !! "uid")); [apply lookup_insert_eq | done].
Qed.

Lemma submitted_for_other cm dashboard k :
  k ≠ "id" → k ≠ "uid" → submitted_for cm dashboard !! k = dashboard !! k.
Proof.
  intros Hid Huid. unfold submitted_for. rewrite lookup_insert_ne by done.
  destruct (is_nil (dashboard !! "uid")); [by rewrite lookup_insert_ne | done].
Qed.

(** One turn of the loop of [updateDashboard], for a payload that parses and
    a request that can be written. *)
Lemma updateDashboard_loop_unparsed again cm folderID overwrite key value rest w :
  Unmarshal_map value = None →
  updateDashboard_loop again cm folderID overwrite ((key, value) :: rest) w
  = klog Error "Failed to unmarshall data" w.
Proof. intros Hparse. cbn [updateDashboard_loop]. by rewrite Hparse. Qed.

(** The payload [null] parses, to a nil map, and the loop panics when it
    stores the uid into it. *)
Lemma updateDashboard_loop_nil again cm folderID overwrite key value rest w :
  Unmarshal_map value = Some nil_map →
  updateDashboard_loop again cm folderID overwrite ((key, value) :: rest) w
  = panic "assignment to entry in nil map" w.
Proof.
  intros Hparse. cbn [updateDashboard_loop]. rewrite Hparse.
  change (nil_map !! "uid") with ((∅ : gmap string JSON) !! "uid").
  rewrite lookup_empty. cbn [is_nil assign]. rewrite bind_run. reflexivity.
Qed.

Lemma updateDashboard_loop_parsed {B} cm dashboard (k : GoMap → M B) w :
  ((if is_nil (a_map dashboard !! "uid")
    then assign (a_map dashboard) "uid"
           (JString (GenerateUID (Name cm) (Namespace cm)))
    else ret (a_map dashboard))
   ≫= λ d, assign d "id" JNull ≫= k) w
  = k (a_map (submitted_for cm dashboard)) w.
Proof.
  unfold submitted_for. change (a_map dashboard !! "uid") with (dashboard !! "uid").
  destruct (is_nil (dashboard !! "uid"));
    repeat (cbn [assign]; rewrite bind_ret_l); reflexivity.
Qed.

Lemma updateDashboard_loop_unwritten again cm folderID overwrite key value rest
    dashboard w :
  Unmarshal_map value = Some (a_map dashboard) →
  json_Marshal (upsertRequest folderID overwrite (submitted_for cm dashboard)) = None →
  updateDashboard_loop again cm folderID overwrite ((key, value) :: rest) w
  = klog Error "failed to marshal body" w.
Proof.
  intros Hparse Hb. cbn [updateDashboard_loop]. rewrite Hparse.
  rewrite updateDashboard_loop_parsed. cbn [entries_of]. by rewrite Hb.
Qed.

Lemma updateDashboard_loop_step again cm folderID overwrite key value rest
    dashboard b w :
  Unmarshal_map value = Some (a_map dashboard) →
  json_Marshal (upsertRequest folderID overwrite (submitted_for cm dashboard)) = Some b →
  updateDashboard_loop again cm folderID overwrite ((key, value) :: rest) w
  = let resp := (SetRequest "POST" dashboardsURL (Some b) retry w).1 in
    let w1 := (SetRequest "POST" dashboardsURL (Some b) retry w).2 in
    after_event (Call "POST" dashboardsURL (Some b) resp.1 resp.2)
      (((if is_version_mismatch resp.1 resp.2 then again
         else klog Info (verdict resp.1 resp.2))
        ≫= λ _, updateDashboard_loop again cm folderID overwrite rest) w1).
Proof.
  intros Hparse Hb. cbn [updateDashboard_loop]. rewrite Hparse.
  rewrite updateDashboard_loop_parsed. cbn [entries_of]. rewrite Hb.
  rewrite bind_run. unfold request at 1 2 3 4 5 6 7. fold dashboardsURL.
  destruct (SetRequest "POST" dashboardsURL (Some b) retry w) as [[body status] w1].
  cbn [fst snd outcome final trace]. unfold is_version_mismatch, verdict.
  destruct (status =? StatusOK); cbn [negb andb];
    [|destruct (status =? StatusPreconditionFailed); cbn [andb];
      [destruct (Contains body "version-mismatch");
       [|destruct (Contains body "name-exists")]|]];
    rewrite bind_run; unfold after_event;
    match goal with |- context [outcome (?m w1)] => destruct (outcome (m w1)) end;
    done.
Qed.

Lemma range_entries (m : gmap string string) (w : World) key value :
  (key, value) ∈ (mapRange m w).1 → m !! key = Some value.
Proof. rewrite (mapRange_perm m w). apply elem_of_map_to_list. Qed.

Lemma always_range_bind {B} Q (m : gmap string string)
    (f : list (string * string) → M B) :
  (∀ entries, (∀ key value, (key, value) ∈ entries → m !! key = Some value) →
              always Q (f entries)) →
  always Q (range m ≫= f).
Proof.
  intros Hf w. rewrite trace_bind. unfold range at 1 2 3.
  pose proof (range_entries m w) as Hin.
  destruct (mapRange m w) as [entries w1]; simpl in *. by apply Hf.
Qed.

Lemma updateDashboard_loop_always Q again cm folderID overwrite entries :
  (∀ key value dashboard b resp status,
     (key, value) ∈ entries →
     Unmarshal_map value = Some (a_map dashboard) →
     json_Marshal (upsertRequest folderID overwrite (submitted_for cm dashboard)) = Some b →
     Q (Call "POST" dashboardsURL (Some b) resp status)) →
  (∀ severity msg, Q (Log severity msg)) →
  always Q again →
  always Q (updateDashboard_loop again cm folderID overwrite entries).
Proof.
  intros Hcall Hlog Hagain. induction entries as [|[key value] rest IH]; intros w.
  { constructor. }
  destruct (Unmarshal_map value) as [[|dashboard]|] eqn:Hparse;
    [ rewrite updateDashboard_loop_nil by done; constructor
    | | rewrite updateDashboard_loop_unparsed by done; by apply always_klog ].
  destruct (json_Marshal (upsertRequest folderID overwrite (submitted_for cm dashboard)))
    as [b|] eqn:Hb;
    [| rewrite (updateDashboard_loop_unwritten _ _ _ _ _ _ _ _ _ Hparse Hb);
       by apply always_klog ].
  rewrite (updateDashboard_loop_step _ _ _ _ _ _ _ _ _ _ Hparse Hb).
  cbv zeta. unfold after_event. cbn [trace]. constructor.
  { eapply Hcall; [apply list_elem_of_here | done..]. }
  apply always_bind.
  - destruct (is_version_mismatch _ _); [done | by apply always_klog].
  - intros _. apply IH. intros. eapply Hcall; [by apply list_elem_of_further | done..].
Qed.

Lemma updateDashboard_general_always Q cm :
  uses_general_folder cm →
  (∀ key value dashboard b overwrite resp status,
     Data cm !! key = Some value →
     Unmarshal_map value = Some (a_map dashboard) →
     json_Marshal (upsertRequest 0%Q overwrite (submitted_for cm dashboard)) = Some b →
     Q (Call "POST" dashboardsURL (Some b) resp status)) →
  (∀ severity msg, Q (Log severity msg)) →
  ∀ fuel overwrite, always Q (updateDashboard fuel (ObjConfigMap (Some cm)) overwrite).
Proof.
  intros Hg Hcall Hlog fuel. induction fuel as [|fuel IH]; intros overwrite w.
  { constructor. }
  rewrite updateDashboard_general by done. revert w.
  apply always_range_bind. intros entries Hin.
  apply updateDashboard_loop_always; [|done|apply IH].
  intros key value dashboard b resp status Hkv Hparse Hb. eauto.
Qed.

Lemma range_bind_run {B} (m : gmap string string)
    (f : list (string * string) → M B) (w : World) :
  (range m ≫= f) w = f (mapRange m w).1 (mapRange m w).2.
Proof.
  rewrite bind_run. unfold range. destruct (mapRange m w). simpl. apply run_eta.
Qed.

Lemma count_GET_upsert b resp status t :
  count_calls "GET" foldersURL (Call "POST" dashboardsURL b resp status :: t)
  = count_calls "GET" foldersURL t.
Proof. reflexivity. Qed.

Lemma mismatches_upsert b resp status t :
  mismatches (Call "POST" dashboardsURL b resp status :: t)
  = ((if is_version_mismatch resp status then 1 else 0) + mismatches t)%nat.
Proof.
  unfold mismatches. cbn [List.filter is_mismatched_upsert is_call].
  rewrite !String.eqb_refl. cbn [andb].
  by destruct (is_version_mismatch resp status).
Qed.

(** In the loop, the lookups of folders are those of the nested calls: one
    for each version mismatch. *)
Lemma updateDashboard_loop_count again cm folderID overwrite entries w :
  (∀ w', outcome (again w') ≠ OutOfFuel →
         count_calls "GET" foldersURL (trace (again w'))
         = S (mismatches (trace (again w')))) →
  outcome (updateDashboard_loop again cm folderID overwrite entries w) ≠ OutOfFuel →
  count_calls "GET" foldersURL
    (trace (updateDashboard_loop again cm folderID overwrite entries w))
  = mismatches (trace (updateDashboard_loop again cm folderID overwrite entries w)).
Proof.
  intros Hagain. revert w. induction entries as [|[key value] rest IH]; intros w.
  { done. }
  destruct (Unmarshal_map value) as [[|dashboard]|] eqn:Hparse;
    [ by rewrite ?updateDashboard_loop_nil
    | | by rewrite ?updateDashboard_loop_unparsed ].
  destruct (json_Marshal (upsertRequest folderID overwrite (submitted_for cm dashboard)))
    as [b|] eqn:Hb.
  2: { by rewrite ?(updateDashboard_loop_unwritten _ _ _ _ _ _ _ _ _ Hparse Hb). }
  rewrite (updateDashboard_loop_step _ _ _ _ _ _ _ _ _ _ Hparse Hb).
  cbv zeta. destruct (SetRequest "POST" dashboardsURL (Some b) retry w)
    as [[resp status] w1]. cbn [fst snd].
  unfold after_event. cbn [outcome trace].
  rewrite count_GET_upsert, mismatches_upsert, outcome_bind, trace_bind.
  rewrite count_calls_app, mismatches_app.
  destruct (is_version_mismatch resp status); cbv iota.
  - intros Hout. specialize (Hagain w1).
    destruct (outcome (again w1)) as [[]| |]; [| |done].
    + rewrite Hagain, IH by done. reflexivity.
    + rewrite Hagain by done. simpl. by rewrite !Nat.add_0_r.
  - cbn [klog outcome final trace]. intros Hout. by rewrite IH.
Qed.

Lemma updateDashboard_count fuel cm overwrite w :
  ¬ uses_general_folder cm →
  outcome (updateDashboard fuel (ObjConfigMap (Some cm)) overwrite w) ≠ OutOfFuel →
  count_calls "GET" foldersURL
    (trace (updateDashboard fuel (ObjConfigMap (Some cm)) overwrite w))
  = S (mismatches (trace (updateDashboard fuel (ObjConfigMap (Some cm)) overwrite w))).
Proof.
  intros Hg. revert overwrite w. induction fuel as [|fuel IH]; intros overwrite w.
  { done. }
  rewrite updateDashboard_folder by done.
  rewrite outcome_bind, trace_bind, count_calls_app, mismatches_app.
  rewrite createCustomFolder_one_GET, createCustomFolder_no_mismatch.
  destruct (outcome (createCustomFolder (folder_title cm) w)) as [id| |]; [|done..].
  destruct (Qeq_bool id 0); [done|].
  rewrite range_bind_run.
  intros Hout. rewrite updateDashboard_loop_count; [done| |done].
  intros w'. apply IH.
Qed.

(** C6: how [updateDashboard] derives the folder.  With the label
    general-folder equal to "true" up to case no call goes to the folders of
    the service and every upsert carries folderId 0.  Otherwise the run
    starts with the resolution of the title taken from the annotation when it
    is there and not empty, and "Custom" otherwise; and the folders are
    looked up once for each invocation of the engine, that is once plus once
    for each retry, however many documents the resource holds. *)
Theorem folder_resolved_once_per_invocation (fuel : nat) (cm : ConfigMap)
    (overwrite : bool) (w : World) :
  let r := updateDashboard (S fuel) (ObjConfigMap (Some cm)) overwrite w in
  (uses_general_folder cm →
   Forall (λ e, off_folders e ∧ upsert_well_formed cm (λ folderID, folderID = 0%Q) e)
          (trace r))
  ∧ (¬ uses_general_folder cm →
     trace (createCustomFolder (folder_title cm) w) `prefix_of` trace r
     ∧ (outcome r ≠ OutOfFuel →
        count_calls "GET" foldersURL (trace r) = S (mismatches (trace r)))).
Proof.
  cbv zeta. split.
  - intros Hg. apply updateDashboard_general_always; [done| |done].
    intros key value dashboard b ow resp status Hkv Hparse Hb. split.
    + simpl. intros Hu. by destruct foldersURL_not_dashboardsURL.
    + intros _.
      exists key, value, dashboard, (submitted_for cm dashboard), 0%Q, ow.
      split_and!; auto using submitted_for_id, submitted_for_uid, submitted_for_other.
  - intros Hg. split; [|by apply updateDashboard_count].
    rewrite updateDashboard_folder by done. rewrite trace_bind.
    by eexists.
Qed.

(** ** Retries *)

Lemma terminates_ret {A} (a : A) : terminates (ret a).
Proof. by intros w. Qed.

Lemma terminates_panic {A} msg : terminates (panic (A := A) msg).
Proof. by intros w. Qed.

Lemma terminates_klog severity msg : terminates (klog severity msg).
Proof. by intros w. Qed.

Lemma terminates_request method url body n : terminates (request method url body n).
Proof. intros w. unfold request. by destruct (SetRequest method url body n w) as [[??]?]. Qed.

Lemma terminates_range m : terminates (range m).
Proof. intros w. unfold range. by destruct (mapRange m w). Qed.

Lemma terminates_bind {A B} (m : M A) (f : A → M B) :
  terminates m → (∀ a, terminates (f a)) → terminates (m ≫= f).
Proof.
  intros Hm Hf w. rewrite outcome_bind. specialize (Hm w).
  destruct (outcome (m w)); [apply Hf | done..].
Qed.

Lemma terminates_assert_float64 v : terminates (assert_float64 v).
Proof. destruct v as [[]|]; simpl; auto using terminates_ret, terminates_panic. Qed.

Lemma createCustomFolder_terminates title : terminates (createCustomFolder title).
Proof.
  apply terminates_bind.
  - apply terminates_bind; [apply terminates_request|].
    intros [body status]. destruct (Unmarshal_maps body) as [folders|].
    + induction folders as [|folder rest IH]; simpl; [apply terminates_ret|].
      destruct (title_is folder title); [apply terminates_assert_float64 | done].
    + apply terminates_bind; [apply terminates_klog | intros; apply terminates_ret].
  - intros id. destruct (Qeq_bool id 0); [|apply terminates_ret].
    apply terminates_bind; [apply terminates_request|].
    intros [body status]. destruct (Unmarshal_map body).
    + apply terminates_assert_float64.
    + apply terminates_bind; [apply terminates_klog | intros; apply terminates_ret].
Qed.

Lemma updateDashboard_loop_terminates again cm folderID overwrite entries :
  terminates again →
  terminates (updateDashboard_loop again cm folderID overwrite entries).
Proof.
  intros Hagain. induction entries as [|[key value] rest IH]; intros w.
  { done. }
  destruct (Unmarshal_map value) as [[|dashboard]|] eqn:Hparse;
    [ by rewrite updateDashboard_loop_nil
    | | by rewrite updateDashboard_loop_unparsed ].
  destruct (json_Marshal (upsertRequest folderID overwrite (submitted_for cm dashboard)))
    as [b|] eqn:Hb;
    [| by rewrite (updateDashboard_loop_unwritten _ _ _ _ _ _ _ _ _ Hparse Hb) ].
  rewrite (updateDashboard_loop_step _ _ _ _ _ _ _ _ _ _ Hparse Hb).
  cbv zeta. unfold after_event. cbn [outcome].
  apply terminates_bind; [|done].
  destruct (is_version_mismatch _ _); [done | apply terminates_klog].
Qed.

(** When the service answers no version mismatch to a request that asks to
    overwrite, the loop with [overwrite = true] never calls the engine again. *)
Lemma updateDashboard_loop_overwrite again again' cm folderID entries w :
  overwrite_never_mismatches →
  updateDashboard_loop again cm folderID true entries w
  = updateDashboard_loop again' cm folderID true entries w.
Proof.
  intros Hsvc. revert w. induction entries as [|[key value] rest IH]; intros w.
  { done. }
  destruct (Unmarshal_map value) as [[|dashboard]|] eqn:Hparse;
    [ by rewrite ?updateDashboard_loop_nil
    | | by rewrite ?updateDashboard_loop_unparsed ].
  destruct (json_Marshal (upsertRequest folderID true (submitted_for cm dashboard)))
    as [b|] eqn:Hb.
  2: { by rewrite ?(updateDashboard_loop_unwritten _ _ _ _ _ _ _ _ _ Hparse Hb). }
  rewrite !(updateDashboard_loop_step _ _ _ _ _ _ _ _ _ _ Hparse Hb).
  cbv zeta. rewrite (Hsvc _ _ _ w Hb). f_equal.
  rewrite !bind_run. cbn [klog outcome final trace]. by rewrite IH.
Qed.

Lemma updateDashboard_overwrite_terminates fuel obj :
  overwrite_never_mismatches → terminates (updateDashboard (S fuel) obj true).
Proof.
  intros Hsvc. cbn [updateDashboard].
  apply terminates_bind; [destruct obj as [[]|]; by intros w|].
  intros cm.
  assert (∀ folderID, terminates (range (Data cm) ≫= updateDashboard_loop
                          (updateDashboard fuel obj true) cm folderID true)) as Hall.
  { intros folderID. apply terminates_bind; [apply terminates_range|].
    intros entries w.
    rewrite (updateDashboard_loop_overwrite _ (ret tt)) by done.
    apply updateDashboard_loop_terminates, terminates_ret. }
  case_match; [|apply Hall].
  apply terminates_bind; [apply createCustomFolder_terminates|].
  intros id. destruct (Qeq_bool id 0); [apply terminates_klog | apply Hall].
Qed.

(** With such a service two levels are enough for every run. *)
Lemma updateDashboard_terminates fuel obj overwrite :
  overwrite_never_mismatches → terminates (updateDashboard (S (S fuel)) obj overwrite).
Proof.
  intros Hsvc. cbn [updateDashboard].
  apply terminates_bind; [destruct obj as [[]|]; by intros w|].
  intros cm.
  assert (∀ id, terminates (range (Data cm) ≫= updateDashboard_loop
                  (updateDashboard (S fuel) obj true) cm id overwrite)) as Hall.
  { intros id. apply terminates_bind; [apply terminates_range|].
    intros entries. apply updateDashboard_loop_terminates.
    by apply updateDashboard_overwrite_terminates. }
  case_match; [|apply Hall].
  apply terminates_bind; [apply createCustomFolder_terminates|].
  intros id. destruct (Qeq_bool id 0); [apply terminates_klog | apply Hall].
Qed.

(** ** The deletion engine *)

Lemma bind_assoc {A B C} (m : M A) (f : A → M B) (g : B → M C) (w : World) :
  ((m ≫= f) ≫= g) w = (m ≫= λ a, f a ≫= g) w.
Proof.
  rewrite !bind_run. destruct (outcome (m w)) as [a| |]; cbn [outcome final trace];
    [|done..].
  rewrite !bind_run. destruct (outcome (f a (final (m w)))); cbn [outcome final trace];
    by rewrite ?app_assoc.
Qed.

Lemma bind_ext {A B} (m : M A) (f g : A → M B) (w : World) :
  (∀ a w', f a w' = g a w') → (m ≫= f) w = (m ≫= g) w.
Proof. intros Hfg. rewrite !bind_run. destruct (outcome (m w)); by rewrite ?Hfg. Qed.

Lemma bind_ext_l {A B} (m m' : M A) (f : A → M B) (w : World) :
  (∀ w', m w' = m' w') → (m ≫= f) w = (m' ≫= f) w.
Proof. intros Hm. by rewrite !bind_run, Hm. Qed.

(** One turn of the loop of [deleteDashboard], for a payload that parses. *)
Lemma deleteDashboard_loop_step cm key value rest dashboard w :
  Unmarshal_map value = Some dashboard →
  deleteDashboard_loop cm ((key, value) :: rest) w
  = ((if negb (is_nil (dashboard !! "uid"))
      then assert_string (dashboard !! "uid")
      else ret (GenerateUID (Name cm) (Namespace cm)))
     ≫= λ uid,
       request "DELETE" (deleteURL uid) None retry
       ≫= λ resp,
         klog (if negb (resp.2 =? StatusOK) then Error else Info)
              (if negb (resp.2 =? StatusOK)
               then "failed to delete dashboard" else "Dashboard deleted")
         ≫= λ _, deleteDashboard_loop cm rest) w.
Proof.
  intros Hparse. cbn [deleteDashboard_loop]. rewrite Hparse.
  apply bind_ext. intros uid w1. apply bind_ext. intros [body status] w2.
  cbn [snd]. by destruct (negb (status =? StatusOK)).
Qed.

Lemma deletable_uid cm dashboard w :
  is_nil (dashboard !! "uid") = true ∨ (∃ uid, dashboard !! "uid" = Some (JString uid)) →
  (if negb (is_nil (dashboard !! "uid"))
   then assert_string (dashboard !! "uid")
   else ret (GenerateUID (Name cm) (Namespace cm))) w
  = ret (delete_target cm dashboard) w.
Proof.
  unfold delete_target. intros [Hnil | [uid Huid]].
  - rewrite Hnil. simpl. by destruct (dashboard !! "uid") as [[]|].
  - by rewrite Huid.
Qed.

(** The turn of a payload past which the loop goes on: one DELETE, one log
    line, and the rest of the entries. *)
Lemma deleteDashboard_loop_deletable cm key value rest dashboard w :
  Unmarshal_map value = Some dashboard →
  is_nil (dashboard !! "uid") = true ∨ (∃ uid, dashboard !! "uid" = Some (JString uid)) →
  ∃ resp status w1 severity msg,
    deleteDashboard_loop cm ((key, value) :: rest) w
    = after_event (Call "DELETE" (deleteURL (delete_target cm dashboard)) None resp status)
        (after_event (Log severity msg) (deleteDashboard_loop cm rest w1)).
Proof.
  intros Hparse Huid. rewrite (deleteDashboard_loop_step _ _ _ _ _ _ Hparse).
  rewrite bind_run, (deletable_uid _ _ _ Huid). cbn [ret outcome final trace].
  rewrite bind_run. unfold request.
  destruct (SetRequest "DELETE" _ None retry w) as [[resp status] w1].
  cbn [outcome final trace fst snd]. rewrite bind_run. cbn [klog outcome final trace].
  eexists resp, status, w1, _, _. unfold after_event. reflexivity.
Qed.

Lemma deleteDashboard_loop_app cm pre rest w :
  Forall (λ kv, deletable kv.2) pre →
  deleteDashboard_loop cm (pre ++ rest) w
  = (deleteDashboard_loop cm pre ≫= λ _, deleteDashboard_loop cm rest) w.
Proof.
  intros Hpre. revert w. induction Hpre as [|[key value] pre Hkv _ IH]; intros w.
  { change (deleteDashboard_loop cm []) with (ret tt). by rewrite bind_ret_l. }
  destruct Hkv as (dashboard & Hparse & Huid). cbn [app].
  rewrite (deleteDashboard_loop_step _ _ _ _ _ _ Hparse).
  rewrite (bind_ext_l _ _ _ _
             (λ w', deleteDashboard_loop_step cm key value pre dashboard w' Hparse)).
  rewrite bind_assoc. apply bind_ext. intros uid w1.
  rewrite bind_assoc. apply bind_ext. intros resp w2.
  rewrite bind_assoc. apply bind_ext. intros _ w3. apply IH.
Qed.

Lemma deleteDashboard_loop_returns cm pre w :
  Forall (λ kv, deletable kv.2) pre →
  outcome (deleteDashboard_loop cm pre w) = Returned tt.
Proof.
  intros Hpre. revert w. induction Hpre as [|[key value] pre Hkv _ IH]; intros w.
  { done. }
  destruct Hkv as (dashboard & Hparse & Huid).
  destruct (deleteDashboard_loop_deletable cm key value pre dashboard w Hparse Huid)
    as (resp & status & w1 & severity & msg & ->).
  apply IH.
Qed.

Lemma count_method_app method t1 t2 :
  count_method method (t1 ++ t2)
  = (count_method method t1 + count_method method t2)%nat.
Proof. unfold count_method. by rewrite List.filter_app, length_app. Qed.

Lemma deleteDashboard_loop_count cm pre w :
  Forall (λ kv, deletable kv.2) pre →
  count_method "DELETE" (trace (deleteDashboard_loop cm pre w)) = length pre.
Proof.
  intros Hpre. revert w. induction Hpre as [|[key value] pre Hkv _ IH]; intros w.
  { done. }
  destruct Hkv as (dashboard & Hparse & Huid).
  destruct (deleteDashboard_loop_deletable cm key value pre dashboard w Hparse Huid)
    as (resp & status & w1 & severity & msg & ->).
  cbn [after_event trace length]. rewrite <- (IH w1). reflexivity.
Qed.

Lemma deleteDashboard_run cm w :
  deleteDashboard (ObjConfigMap (Some cm)) w
  = deleteDashboard_loop cm (mapRange (Data cm) w).1 (mapRange (Data cm) w).2.
Proof.
  unfold deleteDashboard. cbn [asConfigMap]. rewrite bind_ret_l.
  apply range_bind_run.
Qed.

Lemma is_nil_not_string (v : option JSON) uid :
  v = Some (JString uid) → is_nil v = false.
Proof. by intros ->. Qed.

(** C8: the entry that the loop of [deleteDashboard] reaches, with a payload
    that parses, is deleted by a DELETE to /api/dashboards/uid/ followed by
    the uid derived from the name and the namespace of the resource when the
    payload has no uid, and by the uid of the payload when it has one; it is
    the DELETE that follows those of the entries visited before. *)
Theorem delete_targets_payload_or_derived_uid (cm : ConfigMap) (w : World)
    (pre post : list (string * string)) (key value : string)
    (dashboard : GoMap) :
  (mapRange (Data cm) w).1 = pre ++ (key, value) :: post →
  Forall (λ kv, deletable kv.2) pre →
  Unmarshal_map value = Some dashboard →
  let deletes :=
    List.filter (is_method "DELETE")
                (trace (deleteDashboard (ObjConfigMap (Some cm)) w)) in
  (is_nil (dashboard !! "uid") = true →
   ∃ resp status,
     deletes !! length pre
     = Some (Call "DELETE" (deleteURL (GenerateUID (Name cm) (Namespace cm)))
                  None resp status))
  ∧ (∀ uid, dashboard !! "uid" = Some (JString uid) →
     ∃ resp status,
       deletes !! length pre = Some (Call "DELETE" (deleteURL uid) None resp status)).
Proof.
  intros Hentries Hpre Hparse deletes.
  assert (is_nil (dashboard !! "uid") = true
          ∨ (∃ uid, dashboard !! "uid" = Some (JString uid)) →
          ∃ resp status,
            deletes !! length pre
            = Some (Call "DELETE" (deleteURL (delete_target cm dashboard))
                         None resp status)) as Hgen.
  { intros Huid. subst deletes. rewrite deleteDashboard_run, Hentries.
    rewrite deleteDashboard_loop_app, trace_bind by done.
    rewrite deleteDashboard_loop_returns by done.
    destruct (deleteDashboard_loop_deletable cm key value post dashboard
                (final (deleteDashboard_loop cm pre (mapRange (Data cm) w).2))
                Hparse Huid) as (resp & status & w1 & severity & msg & ->).
    exists resp, status. cbn [after_event trace].
    rewrite List.filter_app. cbn [List.filter is_method]. rewrite String.eqb_refl.
    apply list_lookup_middle.
    symmetry. by apply deleteDashboard_loop_count. }
  split.
  - intros Hnil. destruct (Hgen (or_introl Hnil)) as (resp & status & Hd).
    exists resp, status. rewrite Hd. unfold delete_target.
    by destruct (dashboard !! "uid") as [[]|].
  - intros uid Huid. destruct (Hgen (or_intror (ex_intro _ uid Huid))) as (resp & status & Hd).
    exists resp, status. rewrite Hd. unfold delete_target. by rewrite Huid.
Qed.

Lemma assert_string_panics (v : option JSON) w :
  (∀ s, v ≠ Some (JString s)) →
  ∃ msg, assert_string v w = MkRun (Panicked msg) w [].
Proof.
  intros Hv. destruct v as [[| | |s| |]|]; simpl; unfold panic; eauto.
  by destruct (Hv s).
Qed.

(** C9: the deletion engine is not total.  When the loop reaches a payload
    that parses and whose "uid" is a value other than a string (a number, a
    boolean, an array, an object; a null uid counts as no uid), the type
    assertion to string panics: no DELETE is sent for this entry or for the
    entries after it, and the panic leaves the handler of the informer. *)
Theorem delete_non_string_uid_panics (cm : ConfigMap) (w : World)
    (pre post : list (string * string)) (key value : string)
    (dashboard : GoMap) (u : JSON) :
  (mapRange (Data cm) w).1 = pre ++ (key, value) :: post →
  Forall (λ kv, deletable kv.2) pre →
  Unmarshal_map value = Some dashboard →
  dashboard !! "uid" = Some u →
  u ≠ JNull →
  (∀ s, u ≠ JString s) →
  ∃ msg,
    outcome (deleteDashboard (ObjConfigMap (Some cm)) w) = Panicked msg
    ∧ (isDesiredDashboardConfigmap (ObjConfigMap (Some cm)) = true →
       outcome (DeleteFunc (ObjConfigMap (Some cm)) w) = Panicked msg)
    ∧ count_method "DELETE" (trace (deleteDashboard (ObjConfigMap (Some cm)) w))
      = length pre.
Proof.
  intros Hentries Hpre Hparse Huid Hnull Hstr.
  destruct (assert_string_panics (dashboard !! "uid")
              (final (deleteDashboard_loop cm pre (mapRange (Data cm) w).2)))
    as [msg Hmsg].
  { rewrite Huid. intros s [= ->]. by destruct (Hstr s). }
  assert (is_nil (dashboard !! "uid") = false) as Hnil.
  { rewrite Huid. by destruct u. }
  assert (outcome (deleteDashboard (ObjConfigMap (Some cm)) w) = Panicked msg
          ∧ count_method "DELETE" (trace (deleteDashboard (ObjConfigMap (Some cm)) w))
            = length pre) as [Hout Hcount].
  { rewrite deleteDashboard_run, Hentries.
    rewrite deleteDashboard_loop_app, outcome_bind, trace_bind by done.
    rewrite deleteDashboard_loop_returns by done.
    rewrite (deleteDashboard_loop_step _ _ _ _ _ _ Hparse), bind_run, Hnil.
    cbn [negb]. rewrite Hmsg. cbn [outcome trace]. split; [done|].
    rewrite count_method_app, deleteDashboard_loop_count by done.
    apply Nat.add_0_r. }
  exists msg. split_and!; [done| |done].
  intros Hdesired. unfold DeleteFunc. rewrite Hdesired. cbn [negb].
  rewrite outcome_bind. cbn [klog outcome final]. done.
Qed.




(** The second of two resolutions: when the lookup finds the title with an
    id other than 0, nothing is created. *)
Lemma createCustomFolder_found title w id :
  outcome (hasCustomFolder title w) = Returned id →
  Qeq_bool id 0 = false →
  createCustomFolder title w = hasCustomFolder title w.
Proof.
  intros Hid Hnz. unfold createCustomFolder. rewrite bind_run, Hid, Hnz.
  cbn [ret outcome final trace]. rewrite app_nil_r, <- Hid. apply run_eta.
Qed.

(** ** More on the folder resolver *)

Lemma calls_app t1 t2 : calls (t1 ++ t2) = calls t1 ++ calls t2.
Proof. unfold calls. apply List.filter_app. Qed.

Lemma hasCustomFolder_run title w :
  hasCustomFolder title w
  = let resp := (SetRequest "GET" foldersURL None retry w).1 in
    let w1 := (SetRequest "GET" foldersURL None retry w).2 in
    after_event (Call "GET" foldersURL None resp.1 resp.2)
      (match Unmarshal_maps resp.1 with
       | None => (klog Error "Failed to unmarshall response body" ≫= λ _, ret 0%Q) w1
       | Some folders => hasCustomFolder_loop title folders w1
       end).
Proof.
  unfold hasCustomFolder. rewrite bind_run. unfold request. fold foldersURL.
  destruct (SetRequest "GET" foldersURL None retry w) as [[body status] w1].
  cbn [outcome final trace fst snd]. unfold after_event.
  by destruct (Unmarshal_maps body).
Qed.

Lemma hasCustomFolder_loop_none title folders w :
  Forall (λ f, title_is f title = false) folders →
  hasCustomFolder_loop title folders w = ret 0%Q w.
Proof.
  induction 1 as [|f rest Hf _ IH]; [done|]. cbn [hasCustomFolder_loop].
  by rewrite Hf.
Qed.

Lemma hasCustomFolder_calls title w :
  calls (trace (hasCustomFolder title w))
  = [Call "GET" foldersURL None
          (SetRequest "GET" foldersURL None retry w).1.1
          (SetRequest "GET" foldersURL None retry w).1.2].
Proof.
  rewrite hasCustomFolder_run. cbv zeta. unfold after_event.
  cbn [trace calls List.filter is_a_call].
  f_equal. destruct (Unmarshal_maps _) as [folders|]; [|done].
  by rewrite (proj1 (hasCustomFolder_loop_silent _ _ _)).
Qed.

Lemma createCustomFolder_folder_calls title :
  always (folder_call title) (createCustomFolder title).
Proof.
  apply always_bind.
  - apply always_bind; [apply always_request; intros; split; auto|].
    intros [body status]. destruct (Unmarshal_maps body) as [folders|].
    + intros w. by rewrite (proj1 (hasCustomFolder_loop_silent _ _ _)).
    + apply always_bind; [by apply always_klog | intros; apply always_ret].
  - intros id. destruct (Qeq_bool id 0); [|apply always_ret].
    apply always_bind; [apply always_request; intros; split; auto|].
    intros [body status]. destruct (Unmarshal_map body).
    + apply always_assert_float64.
    + apply always_bind; [by apply always_klog | intros; apply always_ret].
Qed.

(** The lookup returns the id of the first folder of the list that has the
    title, whatever the status of the answer and whatever follows that
    folder in the list; it sends the listing and nothing else. *)
Theorem hasCustomFolder_first_match (folderTitle : string) (w : World)
    (folder : GoMap) (x : Q) :
  matched_in_list folderTitle w folder →
  folder !! "id" = Some (JNumber x) →
  outcome (hasCustomFolder folderTitle w) = Returned x
  ∧ trace (hasCustomFolder folderTitle w)
    = [Call "GET" foldersURL None
            (SetRequest "GET" foldersURL None retry w).1.1
            (SetRequest "GET" foldersURL None retry w).1.2].
Proof.
  intros (pre & post & Hlist & Hpre & Hf) Hid.
  rewrite hasCustomFolder_run. cbv zeta. rewrite Hlist.
  rewrite (hasCustomFolder_loop_match _ _ _ _ Hpre Hf), Hid. done.
Qed.

(** The lookup returns 0 when the answer is not a list of folders, and when
    no folder of the list has the title; it logs an error in the first case
    only. *)
Theorem hasCustomFolder_absent (folderTitle : string) (w : World) :
  let body := (SetRequest "GET" foldersURL None retry w).1.1 in
  (∀ folders, Unmarshal_maps body = Some folders →
              Forall (λ f, title_is f folderTitle = false) folders) →
  outcome (hasCustomFolder folderTitle w) = Returned 0%Q
  ∧ final (hasCustomFolder folderTitle w) = (SetRequest "GET" foldersURL None retry w).2
  ∧ (List.filter (λ e, negb (is_a_call e)) (trace (hasCustomFolder folderTitle w))
     = match Unmarshal_maps body with
       | Some _ => []
       | None => [Log Error "Failed to unmarshall response body"]
       end).
Proof.
  intros body Hnone. rewrite hasCustomFolder_run. cbv zeta. fold body.
  destruct (Unmarshal_maps body) as [folders|].
  - by rewrite (hasCustomFolder_loop_none _ _ _ (Hnone folders eq_refl)).
  - done.
Qed.

(** Whatever the service answers, the lookup sends one request: the listing
    of the folders. *)
Theorem hasCustomFolder_one_call (folderTitle : string) (w : World) :
  calls (trace (hasCustomFolder folderTitle w))
  = [Call "GET" foldersURL None
          (SetRequest "GET" foldersURL None retry w).1.1
          (SetRequest "GET" foldersURL None retry w).1.2].
Proof. apply hasCustomFolder_calls. Qed.

Lemma createCustomFolder_run_create title w id :
  outcome (hasCustomFolder title w) = Returned id →
  Qeq_bool id 0 = true →
  let w1 := final (hasCustomFolder title w) in
  let resp := (SetRequest "POST" foldersURL (Some (folder_body title)) retry w1).1 in
  createCustomFolder title w
  = MkRun
      (match Unmarshal_map resp.1 with
       | None => Returned 0%Q
       | Some folder => outcome (assert_float64 (folder !! "id") w1)
       end)
      (SetRequest "POST" foldersURL (Some (folder_body title)) retry w1).2
      (trace (hasCustomFolder title w)
         ++ Call "POST" foldersURL (Some (folder_body title)) resp.1 resp.2
         :: match Unmarshal_map resp.1 with
            | None => [Log Error "Failed to unmarshall response body"]
            | Some _ => []
            end).
Proof.
  intros Hid Hzero w1 resp.
  unfold createCustomFolder. rewrite bind_run, Hid, Hzero. fold w1.
  rewrite bind_run. unfold request. fold foldersURL. fold (folder_body title).
  subst resp.
  destruct (SetRequest "POST" foldersURL (Some (folder_body title)) retry w1)
    as [[body status] w2]. cbn [outcome final trace fst snd].
  destruct (Unmarshal_map body) as [folder|]; [|done].
  by destruct (folder !! "id") as [[]|].
Qed.

(** When the lookup returns 0, the resolver asks the service once to create
    the folder, with the title pasted between quotes; it returns the id of
    the answer when the answer is an object with a numeric id, whatever its
    status, and 0 when the answer does not parse. *)
Theorem createCustomFolder_creates (folderTitle : string) (w : World) (id : Q) :
  outcome (hasCustomFolder folderTitle w) = Returned id →
  Qeq_bool id 0 = true →
  let w1 := final (hasCustomFolder folderTitle w) in
  let resp := (SetRequest "POST" foldersURL (Some (folder_body folderTitle)) retry w1).1 in
  calls (trace (createCustomFolder folderTitle w))
  = calls (trace (hasCustomFolder folderTitle w))
    ++ [Call "POST" foldersURL (Some (folder_body folderTitle)) resp.1 resp.2]
  ∧ (∀ folder x, Unmarshal_map resp.1 = Some folder →
                 folder !! "id" = Some (JNumber x) →
                 outcome (createCustomFolder folderTitle w) = Returned x)
  ∧ (Unmarshal_map resp.1 = None →
     outcome (createCustomFolder folderTitle w) = Returned 0%Q).
Proof.
  intros Hid Hzero w1 resp.
  rewrite (createCustomFolder_run_create _ _ _ Hid Hzero). fold w1. fold resp.
  cbn [outcome trace]. split_and!.
  - rewrite calls_app. f_equal. cbn [calls List.filter is_a_call]. f_equal.
    by destruct (Unmarshal_map resp.1).
  - intros folder x -> ->. done.
  - intros ->. done.
Qed.

(** The resolver sends one listing and at most one creation, both to the
    folders of the service, and the creation carries the title. *)
Theorem createCustomFolder_calls (folderTitle : string) (w : World) :
  Forall (folder_call folderTitle) (trace (createCustomFolder folderTitle w))
  ∧ (1 ≤ length (calls (trace (createCustomFolder folderTitle w))) ≤ 2)%nat.
Proof.
  split; [apply createCustomFolder_folder_calls|].
  destruct (outcome (hasCustomFolder folderTitle w)) as [id| |] eqn:Hid.
  - destruct (Qeq_bool id 0) eqn:Hzero.
    + rewrite (createCustomFolder_run_create _ _ _ Hid Hzero). cbn [trace].
      rewrite calls_app, length_app, hasCustomFolder_calls.
      cbn [calls List.filter is_a_call length].
      destruct (Unmarshal_map _); cbn; lia.
    + unfold createCustomFolder. rewrite trace_bind, Hid, Hzero.
      cbn [ret trace]. rewrite app_nil_r, hasCustomFolder_calls. cbn. lia.
  - unfold createCustomFolder. rewrite trace_bind, Hid.
    rewrite app_nil_r, hasCustomFolder_calls. cbn. lia.
  - unfold createCustomFolder. rewrite trace_bind, Hid.
    rewrite app_nil_r, hasCustomFolder_calls. cbn. lia.
Qed.

(** When the listing shows the folder with an id other than 0, the resolver
    returns that id and creates nothing: its run is the run of the lookup. *)
Theorem createCustomFolder_existing (folderTitle : string) (w : World)
    (folder : GoMap) (x : Q) :
  matched_in_list folderTitle w folder →
  folder !! "id" = Some (JNumber x) →
  Qeq_bool x 0 = false →
  outcome (createCustomFolder folderTitle w) = Returned x
  ∧ calls (trace (createCustomFolder folderTitle w))
    = [Call "GET" foldersURL None
            (SetRequest "GET" foldersURL None retry w).1.1
            (SetRequest "GET" foldersURL None retry w).1.2].
Proof.
  intros (pre & post & Hlist & Hpre & Hf) Hid Hnz.
  assert (outcome (hasCustomFolder folderTitle w) = Returned x) as Hout.
  { rewrite hasCustomFolder_run. cbv zeta. rewrite Hlist.
    by rewrite (hasCustomFolder_loop_match _ _ _ _ Hpre Hf), Hid. }
  rewrite (createCustomFolder_found _ _ _ Hout Hnz).
  split; [done | apply hasCustomFolder_calls].
Qed.

(** ** More on the upsert engine *)

Lemma folder_call_engine_call title e : folder_call title e → engine_call e.
Proof.
  destruct e as [m u b r s|]; [|done].
  intros [-> [[-> ->] | [-> ->]]]; cbn; eauto 10.
Qed.

(** What holds of the calls to the folders, of the log lines and of the
    upserts of the engine and of its retries holds of every event of a run
    of [updateDashboard]. *)
Lemma updateDashboard_always Q cm fuel overwrite :
  (∀ key value dashboard b folderID ow resp status,
     Data cm !! key = Some value →
     Unmarshal_map value = Some (a_map dashboard) →
     json_Marshal (upsertRequest folderID ow (submitted_for cm dashboard)) = Some b →
     ow = overwrite ∨ ow = true →
     Q (Call "POST" dashboardsURL (Some b) resp status)) →
  (∀ severity msg, Q (Log severity msg)) →
  (∀ e, folder_call (folder_title cm) e → Q e) →
  always Q (updateDashboard fuel (ObjConfigMap (Some cm)) overwrite).
Proof.
  intros Hcall Hlog Hfolder. revert overwrite Hcall.
  induction fuel as [|fuel IH]; intros overwrite Hcall w.
  { constructor. }
  assert (∀ folderID, always Q (upsert_all fuel cm overwrite folderID)) as Hall.
  { intros folderID. apply always_range_bind. intros entries Hin.
    apply updateDashboard_loop_always; [|done|].
    - intros key value dashboard b resp status Hkv Hparse Hb.
      eapply Hcall; eauto.
    - apply IH. intros key value dashboard b fid ow resp status Hkv Hparse Hb Hor.
      eapply Hcall; eauto. destruct Hor; auto. }
  destruct (decide (uses_general_folder cm)) as [Hg|Hg].
  - rewrite updateDashboard_general by done. apply Hall.
  - rewrite updateDashboard_folder by done. revert w. apply always_bind.
    + eapply always_mono; [|apply createCustomFolder_folder_calls]. done.
    + intros id. destruct (Qeq_bool id 0); [by apply always_klog | apply Hall].
Qed.

(** The upsert engine never deletes: each of its calls is the listing of the
    folders, the creation of a folder or an upsert.  An entry that has left
    [Data] is never removed from the service by an update. *)
Theorem updateDashboard_never_deletes (fuel : nat) (obj : Obj) (overwrite : bool)
    (w : World) :
  Forall engine_call (trace (updateDashboard fuel obj overwrite w)).
Proof.
  destruct obj as [[cm|]|].
  - apply updateDashboard_always; [|done|].
    + intros. cbn. right. right. eauto.
    + intros e. apply folder_call_engine_call.
  - destruct fuel; constructor.
  - destruct fuel; constructor.
Qed.

(** A run that starts with overwrite=true sends no upsert without it, at any
    depth of the retries. *)
Theorem overwrite_is_kept (fuel : nat) (obj : Obj) (w : World) :
  Forall asks_overwrite (trace (updateDashboard fuel obj true w)).
Proof.
  destruct obj as [[cm|]|].
  - apply updateDashboard_always; [|done|].
    + intros key value dashboard b fid ow resp status _ _ Hb Hor _.
      exists fid, (submitted_for cm dashboard).
      assert (ow = true) as -> by (by destruct Hor). by rewrite Hb.
    + intros [m u b r s|]; [|done]. intros [-> _] Hu.
      by destruct foldersURL_not_dashboardsURL.
  - destruct fuel; constructor.
  - destruct fuel; constructor.
Qed.

Lemma bind_after_event {A B} (m m' : M A) (f : A → M B) e w w1 :
  m w = after_event e (m' w1) →
  (m ≫= f) w = after_event e ((m' ≫= f) w1).
Proof.
  intros Hm. rewrite !bind_run, Hm. unfold after_event. cbn [outcome final trace].
  by destruct (outcome (m' w1)).
Qed.

Lemma updateDashboard_loop_stops again cm folderID overwrite key value rest w :
  stops_upsert cm folderID overwrite value →
  updateDashboard_loop again cm folderID overwrite ((key, value) :: rest) w
  = match Unmarshal_map value with
    | None => klog Error "Failed to unmarshall data" w
    | Some nil_map => panic nil_map_write w
    | Some (a_map _) => klog Error "failed to marshal body" w
    end.
Proof.
  unfold stops_upsert.
  destruct (Unmarshal_map value) as [[|dashboard]|] eqn:Hparse; intros Hstop.
  - by apply updateDashboard_loop_nil.
  - by apply updateDashboard_loop_unwritten with dashboard.
  - by apply updateDashboard_loop_unparsed.
Qed.

(** A payload that does not parse, the payload [null] and a payload whose
    request cannot be written end the loop of the upsert engine: the entries
    after it in the order of the visit have no effect on the run, retries
    included. *)
Theorem upsert_stops_at_bad_payload (again : M unit) (cm : ConfigMap)
    (folderID : Q) (overwrite : bool) (pre post : list (string * string))
    (key value : string) (w : World) :
  stops_upsert cm folderID overwrite value →
  updateDashboard_loop again cm folderID overwrite (pre ++ (key, value) :: post) w
  = updateDashboard_loop again cm folderID overwrite (pre ++ [(key, value)]) w.
Proof.
  intros Hstop. revert w. induction pre as [|[key' value'] pre IH]; intros w; cbn [app].
  { by rewrite !updateDashboard_loop_stops. }
  destruct (Unmarshal_map value') as [[|dashboard]|] eqn:Hparse;
    [ by rewrite !updateDashboard_loop_nil
    | | by rewrite !updateDashboard_loop_unparsed ].
  destruct (json_Marshal (upsertRequest folderID overwrite (submitted_for cm dashboard)))
    as [b|] eqn:Hb;
    [| by rewrite !(updateDashboard_loop_unwritten _ _ _ _ _ _ _ _ _ Hparse Hb) ].
  rewrite !(updateDashboard_loop_step _ _ _ _ _ _ _ _ _ _ Hparse Hb).
  cbv zeta. f_equal. apply bind_ext. intros _ w'. apply IH.
Qed.

Lemma upserts_app t1 t2 : upserts (t1 ++ t2) = (upserts t1 + upserts t2)%nat.
Proof. apply count_calls_app. Qed.

Lemma upserts_upsert b resp status t :
  upserts (Call "POST" dashboardsURL b resp status :: t) = S (upserts t).
Proof. reflexivity. Qed.

Lemma length_range (m : gmap string string) (w : World) :
  length (mapRange m w).1 = size m.
Proof. by rewrite (mapRange_perm m w), length_map_to_list. Qed.

(** The run of the engine, from the loop on. *)
Lemma updateDashboard_from_loop fuel cm overwrite w folderID w1 :
  after_folder cm w = Some (folderID, w1) →
  let r := updateDashboard (S fuel) (ObjConfigMap (Some cm)) overwrite w in
  let l := updateDashboard_loop (updateDashboard fuel (ObjConfigMap (Some cm)) true)
             cm folderID overwrite (mapRange (Data cm) w1).1 (mapRange (Data cm) w1).2 in
  outcome r = outcome l
  ∧ upserts (trace r) = upserts (trace l)
  ∧ mismatches (trace r) = mismatches (trace l).
Proof.
  unfold after_folder. intros Hstart. cbv zeta.
  destruct (decide (uses_general_folder cm)) as [Hg|Hg].
  - injection Hstart as <- <-.
    rewrite updateDashboard_general by done. by rewrite range_bind_run.
  - rewrite updateDashboard_folder by done.
    rewrite outcome_bind, trace_bind, upserts_app, mismatches_app.
    unfold upserts at 1. rewrite createCustomFolder_no_upsert, createCustomFolder_no_mismatch.
    destruct (outcome (createCustomFolder (folder_title cm) w)) as [id| |]; [|done..].
    destruct (Qeq_bool id 0); [done|]. injection Hstart as <- <-.
    by rewrite range_bind_run.
Qed.

(** In a run without version mismatch the loop sends one upsert for each
    entry it passes, and stops at the first payload it cannot turn into a
    request. *)
Lemma updateDashboard_loop_quiet again cm folderID overwrite entries w :
  mismatches (trace (updateDashboard_loop again cm folderID overwrite entries w)) = 0%nat →
  (Forall (λ kv, upsertable cm folderID overwrite kv.2) entries →
   outcome (updateDashboard_loop again cm folderID overwrite entries w) = Returned tt
   ∧ upserts (trace (updateDashboard_loop again cm folderID overwrite entries w))
     = length entries)
  ∧ (∀ pre key value post,
       entries = pre ++ (key, value) :: post →
       Forall (λ kv, upsertable cm folderID overwrite kv.2) pre →
       stops_upsert cm folderID overwrite value →
       outcome (updateDashboard_loop again cm folderID overwrite entries w)
       = (match Unmarshal_map value with
          | Some nil_map => Panicked nil_map_write
          | _ => Returned tt
          end)
       ∧ upserts (trace (updateDashboard_loop again cm folderID overwrite entries w))
         = length pre).
Proof.
  revert w. induction entries as [|[key value] rest IH]; intros w Hquiet.
  { split; [done|]. intros [] ???? Heq; discriminate. }
  destruct (Unmarshal_map value) as [[|dashboard]|] eqn:Hparse.
  - (* null *)
    split.
    + intros Hall. apply Forall_cons_1 in Hall as [(d & Hd & _) _]. cbn in Hd. congruence.
    + intros [|[k' v'] pre] key' value' post Heq Hpre Hstop.
      * injection Heq as <- <- <-. rewrite updateDashboard_loop_nil by done.
        by rewrite Hparse.
      * injection Heq as <- <- ->. apply Forall_cons_1 in Hpre as [(d & Hd & _) _].
        cbn in Hd. congruence.
  - destruct (json_Marshal (upsertRequest folderID overwrite (submitted_for cm dashboard)))
      as [b|] eqn:Hb.
    + revert Hquiet. rewrite (updateDashboard_loop_step _ _ _ _ _ _ _ _ _ _ Hparse Hb).
      cbv zeta. unfold after_event. cbn [outcome trace].
      rewrite mismatches_upsert, upserts_upsert.
      destruct (is_version_mismatch _ _); [done|]. cbn [Nat.add].
      rewrite bind_run. cbn [klog outcome final trace app]. intros Hquiet.
      change (mismatches (Log Info ?m :: ?t)) with (mismatches t) in Hquiet.
      change (upserts (Log Info ?m :: ?t)) with (upserts t).
      destruct (IH _ Hquiet) as [IH1 IH2]. split.
      * intros Hall. apply Forall_cons_1 in Hall as [_ Hall].
        destruct (IH1 Hall) as [-> ->]. done.
      * intros [|[k' v'] pre] key' value' post Heq Hpre Hstop.
        -- injection Heq as <- <- <-. unfold stops_upsert in Hstop.
           rewrite Hparse in Hstop. congruence.
        -- injection Heq as <- <- ->. apply Forall_cons_1 in Hpre as [_ Hpre].
           destruct (IH2 _ _ _ _ eq_refl Hpre Hstop) as [-> ->]. done.
    + split.
      * intros Hall. apply Forall_cons_1 in Hall as [(d & Hd & Hm) _].
        cbn in Hd. rewrite Hparse in Hd. injection Hd as <-.
        destruct Hm as [b' Hb']. congruence.
      * intros [|[k' v'] pre] key' value' post Heq Hpre Hstop.
        -- injection Heq as <- <- <-.
           rewrite (updateDashboard_loop_unwritten _ _ _ _ _ _ _ _ _ Hparse Hb).
           by rewrite Hparse.
        -- injection Heq as <- <- ->. apply Forall_cons_1 in Hpre as [(d & Hd & Hm) _].
           cbn in Hd. rewrite Hparse in Hd. injection Hd as <-.
           destruct Hm as [b' Hb']. congruence.
  - split.
    + intros Hall. apply Forall_cons_1 in Hall as [(d & Hd & _) _]. cbn in Hd. congruence.
    + intros [|[k' v'] pre] key' value' post Heq Hpre Hstop.
      * injection Heq as <- <- <-. rewrite updateDashboard_loop_unparsed by done.
        by rewrite Hparse.
      * injection Heq as <- <- ->. apply Forall_cons_1 in Hpre as [(d & Hd & _) _].
        cbn in Hd. congruence.
Qed.

(** When every payload of [Data] can be turned into a request and the
    service answers no version mismatch, the engine sends one upsert for each
    entry and returns: an answer such as 412 name-exists or 500 to one
    document costs a log line and does not keep the others from being
    submitted. *)
Theorem upsert_one_per_entry (fuel : nat) (cm : ConfigMap) (overwrite : bool)
    (w : World) (folderID : Q) (w1 : World) :
  after_folder cm w = Some (folderID, w1) →
  (∀ key value, Data cm !! key = Some value → upsertable cm folderID overwrite value) →
  let r := updateDashboard (S fuel) (ObjConfigMap (Some cm)) overwrite w in
  mismatches (trace r) = 0%nat →
  outcome r = Returned tt ∧ upserts (trace r) = size (Data cm).
Proof.
  intros Hstart Hall r.
  destruct (updateDashboard_from_loop fuel cm overwrite w folderID w1 Hstart)
    as (Hout & Hups & Hmis).
  subst r. rewrite Hout, Hups, Hmis. intros Hquiet.
  destruct (updateDashboard_loop_quiet _ _ _ _ _ _ Hquiet) as [Hgo _].
  rewrite <- (length_range (Data cm) w1). apply Hgo.
  apply Forall_forall. intros [key value] Hin. apply (Hall key).
  by apply (range_entries _ w1).
Qed.

(** When the service answers no version mismatch and the loop reaches a
    payload that does not parse or whose request cannot be written, the
    engine returns after one upsert for each entry before it; when that
    payload is [null] the engine panics instead, at the assignment of the
    uid into the nil map. *)
Theorem upsert_reaches_bad_payload (fuel : nat) (cm : ConfigMap) (overwrite : bool)
    (w : World) (folderID : Q) (w1 : World)
    (pre post : list (string * string)) (key value : string) :
  after_folder cm w = Some (folderID, w1) →
  (mapRange (Data cm) w1).1 = pre ++ (key, value) :: post →
  Forall (λ kv, upsertable cm folderID overwrite kv.2) pre →
  stops_upsert cm folderID overwrite value →
  let r := updateDashboard (S fuel) (ObjConfigMap (Some cm)) overwrite w in
  mismatches (trace r) = 0%nat →
  outcome r = (match Unmarshal_map value with
               | Some nil_map => Panicked nil_map_write
               | _ => Returned tt
               end)
  ∧ upserts (trace r) = length pre.
Proof.
  intros Hstart Hentries Hpre Hstop r.
  destruct (updateDashboard_from_loop fuel cm overwrite w folderID w1 Hstart)
    as (Hout & Hups & Hmis).
  subst r. rewrite Hout, Hups, Hmis. intros Hquiet.
  destruct (updateDashboard_loop_quiet _ _ _ _ _ _ Hquiet) as [_ Hbad].
  by apply (Hbad pre key value post).
Qed.

(** ** The depth and the cost of the retries *)

Lemma updateDashboard_loop_depth n again cm folderID overwrite entries w :
  (∀ w', outcome (again w') = OutOfFuel → (n ≤ mismatches (trace (again w')))%nat) →
  outcome (updateDashboard_loop again cm folderID overwrite entries w) = OutOfFuel →
  (S n ≤ mismatches (trace (updateDashboard_loop again cm folderID overwrite entries w)))%nat.
Proof.
  intros Hagain. revert w. induction entries as [|[key value] rest IH]; intros w.
  { done. }
  destruct (Unmarshal_map value) as [[|dashboard]|] eqn:Hparse;
    [ by rewrite ?updateDashboard_loop_nil
    | | by rewrite ?updateDashboard_loop_unparsed ].
  destruct (json_Marshal (upsertRequest folderID overwrite (submitted_for cm dashboard)))
    as [b|] eqn:Hb.
  2: { by rewrite ?(updateDashboard_loop_unwritten _ _ _ _ _ _ _ _ _ Hparse Hb). }
  rewrite (updateDashboard_loop_step _ _ _ _ _ _ _ _ _ _ Hparse Hb).
  cbv zeta. destruct (SetRequest "POST" dashboardsURL (Some b) retry w)
    as [[resp status] w1]. cbn [fst snd].
  unfold after_event. cbn [outcome trace].
  rewrite mismatches_upsert, outcome_bind, trace_bind, mismatches_app.
  destruct (is_version_mismatch resp status); cbv iota.
  - specialize (Hagain w1). specialize (IH (final (again w1))).
    destruct (outcome (again w1)) as [[]| |]; [|done|].
    + intros Hout. apply IH in Hout. clear -Hout. lia.
    + intros _. specialize (Hagain eq_refl). clear -Hagain. lia.
  - cbn [klog outcome final trace]. intros Hout. apply IH in Hout.
    change (mismatches [Log Info _]) with 0%nat. clear -Hout. lia.
Qed.

(** The engine calls itself only after a version mismatch: a run that needs
    more than [fuel] nested calls has received at least [fuel] version
    mismatches.  A service that answers at most [n] of them is served to the
    end within [n + 1] levels. *)
Theorem retry_depth_bounded_by_mismatches (fuel : nat) (obj : Obj)
    (overwrite : bool) (w : World) :
  outcome (updateDashboard fuel obj overwrite w) = OutOfFuel →
  (fuel ≤ mismatches (trace (updateDashboard fuel obj overwrite w)))%nat.
Proof.
  revert overwrite w. induction fuel as [|fuel IH]; intros overwrite w.
  { intros _. apply Nat.le_0_l. }
  destruct obj as [[cm|]|]; [|done..].
  assert (∀ folderID w1,
            outcome (upsert_all fuel cm overwrite folderID w1) = OutOfFuel →
            (S fuel ≤ mismatches (trace (upsert_all fuel cm overwrite folderID w1)))%nat)
    as Hall.
  { intros folderID w1. rewrite range_bind_run.
    apply updateDashboard_loop_depth. intros w'. apply IH. }
  destruct (decide (uses_general_folder cm)) as [Hg|Hg].
  - rewrite updateDashboard_general by done. apply Hall.
  - rewrite updateDashboard_folder by done.
    rewrite outcome_bind, trace_bind, mismatches_app, createCustomFolder_no_mismatch.
    pose proof (createCustomFolder_terminates (folder_title cm) w) as Hterm.
    destruct (outcome (createCustomFolder (folder_title cm) w)) as [id| |]; [|done..].
    destruct (Qeq_bool id 0); [done|]. apply Hall.
Qed.

Lemma updateDashboard_loop_cost N again cm folderID overwrite entries w :
  (∀ w', (upserts (trace (again w')) ≤ N + mismatches (trace (again w')) * N)%nat) →
  (upserts (trace (updateDashboard_loop again cm folderID overwrite entries w))
   ≤ length entries
     + mismatches (trace (updateDashboard_loop again cm folderID overwrite entries w)) * N)%nat.
Proof.
  intros Hagain. revert w. induction entries as [|[key value] rest IH]; intros w.
  { cbn. lia. }
  destruct (Unmarshal_map value) as [[|dashboard]|] eqn:Hparse;
    [ rewrite updateDashboard_loop_nil by done; cbn; lia
    | | rewrite updateDashboard_loop_unparsed by done; cbn; lia ].
  destruct (json_Marshal (upsertRequest folderID overwrite (submitted_for cm dashboard)))
    as [b|] eqn:Hb.
  2: { rewrite (updateDashboard_loop_unwritten _ _ _ _ _ _ _ _ _ Hparse Hb). cbn. lia. }
  rewrite (updateDashboard_loop_step _ _ _ _ _ _ _ _ _ _ Hparse Hb).
  cbv zeta. destruct (SetRequest "POST" dashboardsURL (Some b) retry w)
    as [[resp status] w1]. cbn [fst snd].
  unfold after_event. cbn [trace length].
  rewrite mismatches_upsert, upserts_upsert, trace_bind, mismatches_app, upserts_app.
  destruct (is_version_mismatch resp status); cbv iota.
  - specialize (Hagain w1). specialize (IH (final (again w1))).
    destruct (outcome (again w1)) as [[]| |].
    + clear -Hagain IH. nia.
    + change (upserts []) with 0%nat. change (mismatches []) with 0%nat.
      clear -Hagain. nia.
    + change (upserts []) with 0%nat. change (mismatches []) with 0%nat.
      clear -Hagain. nia.
  - cbn [klog outcome final trace]. specialize (IH w1).
    change (upserts [Log Info _]) with 0%nat.
    change (mismatches [Log Info _]) with 0%nat. clear -IH. nia.
Qed.

(** Each invocation of the engine sends at most one upsert for each entry of
    [Data], and there is one invocation for the event and one for each
    version mismatch: a run sends at most (1 + mismatches) × size of [Data]
    upserts. *)
Theorem upserts_bounded (fuel : nat) (cm : ConfigMap) (overwrite : bool) (w : World) :
  let r := updateDashboard fuel (ObjConfigMap (Some cm)) overwrite w in
  (upserts (trace r) ≤ (1 + mismatches (trace r)) * size (Data cm))%nat.
Proof.
  cbv zeta.
  assert (∀ fuel overwrite w,
            (upserts (trace (updateDashboard fuel (ObjConfigMap (Some cm)) overwrite w))
             ≤ size (Data cm)
               + mismatches (trace (updateDashboard fuel (ObjConfigMap (Some cm)) overwrite w))
                 * size (Data cm))%nat) as Hgen; [|specialize (Hgen fuel overwrite w); lia].
  clear. intros fuel. induction fuel as [|fuel IH]; intros overwrite w.
  { cbn. lia. }
  assert (∀ folderID w1,
            (upserts (trace (upsert_all fuel cm overwrite folderID w1))
             ≤ size (Data cm)
               + mismatches (trace (upsert_all fuel cm overwrite folderID w1))
                 * size (Data cm))%nat) as Hall.
  { intros folderID w1. rewrite !range_bind_run.
    rewrite <- (length_range (Data cm) w1) at 1.
    apply updateDashboard_loop_cost. intros w'. apply IH. }
  destruct (decide (uses_general_folder cm)) as [Hg|Hg].
  - rewrite updateDashboard_general by done. apply Hall.
  - rewrite updateDashboard_folder by done.
    rewrite trace_bind, mismatches_app, upserts_app, createCustomFolder_no_mismatch.
    unfold upserts at 1. rewrite createCustomFolder_no_upsert.
    destruct (outcome (createCustomFolder (folder_title cm) w)) as [id| |];
      [|cbn; lia..].
    destruct (Qeq_bool id 0); [cbn; lia|]. apply Hall.
Qed.

(** ** Fuel *)

Lemma updateDashboard_loop_again again again' cm folderID overwrite entries w :
  (∀ w', outcome (again w') ≠ OutOfFuel → again' w' = again w') →
  outcome (updateDashboard_loop again cm folderID overwrite entries w) ≠ OutOfFuel →
  updateDashboard_loop again' cm folderID overwrite entries w
  = updateDashboard_loop again cm folderID overwrite entries w.
Proof.
  intros Hagain. revert w. induction entries as [|[key value] rest IH]; intros w.
  { done. }
  destruct (Unmarshal_map value) as [[|dashboard]|] eqn:Hparse;
    [ by rewrite !updateDashboard_loop_nil
    | | by rewrite !updateDashboard_loop_unparsed ].
  destruct (json_Marshal (upsertRequest folderID overwrite (submitted_for cm dashboard)))
    as [b|] eqn:Hb.
  2: { by rewrite !(updateDashboard_loop_unwritten _ _ _ _ _ _ _ _ _ Hparse Hb). }
  rewrite !(updateDashboard_loop_step _ _ _ _ _ _ _ _ _ _ Hparse Hb).
  cbv zeta. destruct (SetRequest "POST" dashboardsURL (Some b) retry w)
    as [[resp status] w1]. cbn [fst snd].
  unfold after_event. cbn [outcome]. rewrite outcome_bind.
  destruct (is_version_mismatch resp status); cbv iota.
  - specialize (Hagain w1). specialize (IH (final (again w1))).
    rewrite !bind_run.
    destruct (outcome (again w1)) as [[]| |] eqn:Hr; [| |done].
    + intros Hout. rewrite Hagain by done. rewrite Hr. by rewrite IH.
    + intros _. rewrite Hagain by done. by rewrite Hr.
  - rewrite !bind_run. cbn [klog outcome final trace]. intros Hout. by rewrite IH.
Qed.

(** A run that ends within [fuel] levels is the same with any larger
    budget: what the model says of a run that is not out of fuel does not
    depend on the fuel. *)
Lemma enough_fuel (fuel more : nat) (obj : Obj) (overwrite : bool) (w : World) :
  outcome (updateDashboard fuel obj overwrite w) ≠ OutOfFuel →
  updateDashboard (more + fuel) obj overwrite w = updateDashboard fuel obj overwrite w.
Proof.
  assert (∀ fuel overwrite w,
            outcome (updateDashboard fuel obj overwrite w) ≠ OutOfFuel →
            updateDashboard (S fuel) obj overwrite w = updateDashboard fuel obj overwrite w)
    as Hstep.
  { clear. intros fuel. induction fuel as [|fuel IH]; intros overwrite w; [done|].
    destruct obj as [[cm|]|]; [|done..].
    assert (∀ folderID w1,
              outcome (upsert_all fuel cm overwrite folderID w1) ≠ OutOfFuel →
              upsert_all (S fuel) cm overwrite folderID w1
              = upsert_all fuel cm overwrite folderID w1) as Hall.
    { intros folderID w1. rewrite !range_bind_run.
      apply updateDashboard_loop_again. intros w'. apply IH. }
    destruct (decide (uses_general_folder cm)) as [Hg|Hg].
    - rewrite !(updateDashboard_general _ cm) by done. apply Hall.
    - rewrite !(updateDashboard_folder _ cm) by done.
      rewrite outcome_bind, !bind_run.
      destruct (outcome (createCustomFolder (folder_title cm) w)) as [id| |]; [|done..].
      destruct (Qeq_bool id 0); [done|]. intros Hout. by rewrite Hall. }
  intros Hout. induction more as [|more IH]; [done|].
  cbn [Nat.add]. rewrite Hstep; [done|]. by rewrite IH.
Qed.

(** ** More on the deletion engine *)

Lemma deleteDashboard_loop_always Q cm entries :
  (∀ key value dashboard resp status,
     (key, value) ∈ entries →
     Unmarshal_map value = Some dashboard →
     Q (Call "DELETE" (deleteURL (delete_target cm dashboard)) None resp status)) →
  (∀ severity msg, Q (Log severity msg)) →
  always Q (deleteDashboard_loop cm entries).
Proof.
  intros Hcall Hlog. induction entries as [|[key value] rest IH]; intros w.
  { constructor. }
  destruct (Unmarshal_map value) as [dashboard|] eqn:Hparse.
  2: { cbn [deleteDashboard_loop]. rewrite Hparse. by apply always_klog. }
  rewrite (deleteDashboard_loop_step _ _ _ _ _ _ Hparse), trace_bind.
  assert (∀ uid, outcome ((if negb (is_nil (dashboard !! "uid"))
                           then assert_string (dashboard !! "uid")
                           else ret (GenerateUID (Name cm) (Namespace cm))) w)
                 = Returned uid →
                 uid = delete_target cm dashboard) as Huid.
  { unfold delete_target. intros uid.
    destruct (dashboard !! "uid") as [[| | |s| |]|]; cbn; congruence. }
  apply Forall_app. split.
  { destruct (negb (is_nil (dashboard !! "uid")));
      [apply always_assert_string | apply always_ret]. }
  destruct (outcome _) as [uid| |]; [|constructor..].
  rewrite (Huid uid eq_refl). apply always_bind.
  { apply always_request. intros resp status.
    eapply Hcall; [apply list_elem_of_here | done]. }
  intros resp. apply always_bind; [by apply always_klog|].
  intros _. apply IH. intros. eapply Hcall; [by apply list_elem_of_further | done].
Qed.

Lemma deleteDashboard_loop_at_most cm entries w :
  (count_method "DELETE" (trace (deleteDashboard_loop cm entries w)) ≤ length entries)%nat.
Proof.
  revert w. induction entries as [|[key value] rest IH]; intros w.
  { done. }
  destruct (Unmarshal_map value) as [dashboard|] eqn:Hparse.
  2: { cbn [deleteDashboard_loop]. rewrite Hparse. cbn. lia. }
  rewrite (deleteDashboard_loop_step _ _ _ _ _ _ Hparse).
  rewrite trace_bind, count_method_app.
  replace (count_method "DELETE" (trace _)) with 0%nat.
  2: { destruct (negb (is_nil (dashboard !! "uid"))); [|done].
       by destruct (dashboard !! "uid") as [[]|]. }
  destruct (outcome _) as [uid| |]; [|cbn; lia..].
  rewrite trace_bind, count_method_app. unfold request at 1 2 3.
  destruct (SetRequest "DELETE" _ None retry _) as [[resp status] w1].
  cbn [outcome final trace]. rewrite trace_bind, count_method_app.
  cbn [klog outcome final trace snd].
  specialize (IH w1). cbn [length].
  change (count_method "DELETE" [Call "DELETE" _ _ _ _]) with 1%nat.
  change (count_method "DELETE" [Log _ _]) with 0%nat. lia.
Qed.

(** The deletion engine only deletes dashboards: each of its calls is a
    DELETE, without body, of the uid of a payload of [Data] (its own uid, or
    the uid derived from the resource, which all the payloads without uid
    share), and there is at most one for each entry.  It never touches a
    folder. *)
Theorem deleteDashboard_only_deletes (cm : ConfigMap) (w : World) :
  Forall (delete_of cm) (trace (deleteDashboard (ObjConfigMap (Some cm)) w))
  ∧ (count_method "DELETE" (trace (deleteDashboard (ObjConfigMap (Some cm)) w))
     ≤ size (Data cm))%nat.
Proof.
  rewrite deleteDashboard_run. split.
  - apply deleteDashboard_loop_always; [|done].
    intros key value dashboard resp status Hin Hparse. cbn.
    split_and!; [done..|]. exists key, value, dashboard. split_and!; [|done..].
    by apply (range_entries _ w).
  - rewrite <- (length_range (Data cm) w). apply deleteDashboard_loop_at_most.
Qed.

(** When every payload of [Data] parses and has no uid or a string for uid,
    the engine sends one DELETE for each entry and returns, whatever the
    service answers: a DELETE that fails is logged and the loop goes on. *)
Theorem delete_one_per_entry (cm : ConfigMap) (w : World) :
  (∀ key value, Data cm !! key = Some value → deletable value) →
  outcome (deleteDashboard (ObjConfigMap (Some cm)) w) = Returned tt
  ∧ count_method "DELETE" (trace (deleteDashboard (ObjConfigMap (Some cm)) w))
    = size (Data cm).
Proof.
  intros Hall. rewrite deleteDashboard_run.
  assert (Forall (λ kv : string * string, deletable kv.2) (mapRange (Data cm) w).1) as Hfa.
  { apply Forall_forall. intros [key value] Hin. apply (Hall key).
    by apply (range_entries _ w). }
  split.
  - by apply deleteDashboard_loop_returns.
  - rewrite <- (length_range (Data cm) w). by apply deleteDashboard_loop_count.
Qed.

(** ** The handlers *)

(** An update that leaves [Data] as it was reaches nothing: whatever has
    changed in the labels, the annotations or the owners (the folder
    annotation, say), the handler returns without a call and without a log
    line. *)
Theorem UpdateFunc_ignores_metadata (fuel : nat) (old new : Informed)
    (oldcm newcm : ConfigMap) (w : World) :
  object old = ObjConfigMap (Some oldcm) →
  object new = ObjConfigMap (Some newcm) →
  Data oldcm = Data newcm →
  nil_data old = nil_data new →
  UpdateFunc fuel old new w = ret tt w.
Proof.
  intros Hold Hnew Hdata Hnil. unfold UpdateFunc. rewrite Hold, Hnew.
  destruct (isDesiredDashboardConfigmap _); [|done]. cbn [negb asConfigMap].
  rewrite !bind_ret_l.
  assert (DeepEqual_Data old oldcm new newcm = true) as ->; [|done].
  unfold DeepEqual_Data, data_is_nil. rewrite Hdata, Hnil.
  destruct (nil_data new && bool_decide (Data newcm = ∅))%bool; [done|].
  by apply bool_decide_eq_true.
Qed.

(** The handler of updates acts on the new object alone: it returns without
    a call and without a log line when the filter rejects the new object,
    also when it accepted the old one.  A resource that loses its label is
    not deleted from the service. *)
Lemma UpdateFunc_rejected (fuel : nat) (old new : Informed) (w : World) :
  isDesiredDashboardConfigmap (object new) = false →
  UpdateFunc fuel old new w = ret tt w.
Proof. intros Hrej. unfold UpdateFunc. by rewrite Hrej. Qed.

(** The handlers of additions and of updates never delete: their calls are
    listings and creations of folders and upserts.  A dashboard whose entry
    has left [Data] stays in the service. *)
Theorem upsert_handlers_never_delete (fuel : nat) (obj : Obj) (old new : Informed)
    (w : World) :
  Forall engine_call (trace (AddFunc fuel obj w))
  ∧ Forall engine_call (trace (UpdateFunc fuel old new w)).
Proof.
  assert (∀ obj overwrite, always engine_call (updateDashboard fuel obj overwrite))
    as Hupd.
  { intros [[cm|]|] overwrite.
    - apply updateDashboard_always; [|done|].
      + intros. cbn. right. right. eauto.
      + intros e. apply folder_call_engine_call.
    - intros w'. destruct fuel; constructor.
    - intros w'. destruct fuel; constructor. }
  split.
  - unfold AddFunc. destruct (negb _); [constructor|].
    revert w. apply always_bind; [by apply always_klog | intros; apply Hupd].
  - unfold UpdateFunc. destruct (negb _); [constructor|].
    revert w. apply always_bind; [apply always_asConfigMap|]. intros oldcm.
    apply always_bind; [apply always_asConfigMap|]. intros newcm.
    destruct (negb _); [|apply always_ret].
    apply always_bind; [by apply always_klog | intros; apply Hupd].
Qed.

Lemma panics_within_bind {A B} msgs (m : M A) (f : A → M B) :
  panics_within msgs m → (∀ a, panics_within msgs (f a)) →
  panics_within msgs (m ≫= f).
Proof.
  intros Hm Hf w msg. rewrite outcome_bind. specialize (Hm w).
  destruct (outcome (m w)) as [a| |]; [apply Hf | | done].
  intros [= <-]. by apply Hm.
Qed.

Lemma panics_within_ret {A} msgs (a : A) : panics_within msgs (ret a).
Proof. by intros w msg. Qed.

Lemma panics_within_klog msgs severity msg : panics_within msgs (klog severity msg).
Proof. by intros w m. Qed.

Lemma panics_within_request msgs method url body n :
  panics_within msgs (request method url body n).
Proof. intros w msg. unfold request. by destruct (SetRequest _ _ _ _ _) as [[??]?]. Qed.

Lemma panics_within_range msgs m : panics_within msgs (range m).
Proof. intros w msg. unfold range. by destruct (mapRange m w). Qed.

Lemma panics_within_assert_float64 msgs v :
  not_float64 ∈ msgs → panics_within msgs (assert_float64 v).
Proof. intros Hin w msg. destruct v as [[]|]; cbn; intros [= <-]; done. Qed.

Lemma panics_within_assert_string msgs v :
  not_string ∈ msgs → panics_within msgs (assert_string v).
Proof. intros Hin w msg. destruct v as [[]|]; cbn; intros [= <-]; done. Qed.

Lemma createCustomFolder_panics msgs title :
  not_float64 ∈ msgs → panics_within msgs (createCustomFolder title).
Proof.
  intros Hin. apply panics_within_bind.
  - apply panics_within_bind; [apply panics_within_request|].
    intros [body status]. destruct (Unmarshal_maps body) as [folders|].
    + induction folders as [|folder rest IH]; cbn [hasCustomFolder_loop];
        [apply panics_within_ret|].
      destruct (title_is folder title); [by apply panics_within_assert_float64 | done].
    + apply panics_within_bind; [apply panics_within_klog | intros; apply panics_within_ret].
  - intros id. destruct (Qeq_bool id 0); [|apply panics_within_ret].
    apply panics_within_bind; [apply panics_within_request|].
    intros [body status]. destruct (Unmarshal_map body).
    + by apply panics_within_assert_float64.
    + apply panics_within_bind; [apply panics_within_klog | intros; apply panics_within_ret].
Qed.

Lemma updateDashboard_loop_panics msgs again cm folderID overwrite entries :
  nil_map_write ∈ msgs →
  panics_within msgs again →
  panics_within msgs (updateDashboard_loop again cm folderID overwrite entries).
Proof.
  intros Hin Hagain. induction entries as [|[key value] rest IH]; intros w msg.
  { done. }
  destruct (Unmarshal_map value) as [[|dashboard]|] eqn:Hparse;
    [ rewrite updateDashboard_loop_nil by done; by intros [= <-]
    | | by rewrite updateDashboard_loop_unparsed ].
  destruct (json_Marshal (upsertRequest folderID overwrite (submitted_for cm dashboard)))
    as [b|] eqn:Hb;
    [| by rewrite (updateDashboard_loop_unwritten _ _ _ _ _ _ _ _ _ Hparse Hb) ].
  rewrite (updateDashboard_loop_step _ _ _ _ _ _ _ _ _ _ Hparse Hb).
  cbv zeta. unfold after_event. cbn [outcome].
  apply panics_within_bind; [|done].
  destruct (is_version_mismatch _ _); [done | apply panics_within_klog].
Qed.

Lemma updateDashboard_panics fuel cm overwrite :
  panics_within [not_float64; nil_map_write]
                (updateDashboard fuel (ObjConfigMap (Some cm)) overwrite).
Proof.
  revert overwrite. induction fuel as [|fuel IH]; intros overwrite; [by intros w msg|].
  assert (∀ folderID, panics_within [not_float64; nil_map_write]
                        (upsert_all fuel cm overwrite folderID)) as Hall.
  { intros folderID. apply panics_within_bind; [apply panics_within_range|].
    intros entries. apply updateDashboard_loop_panics; [set_solver | apply IH]. }
  intros w. destruct (decide (uses_general_folder cm)) as [Hg|Hg].
  - rewrite updateDashboard_general by done. apply Hall.
  - rewrite updateDashboard_folder by done. revert w. apply panics_within_bind.
    + apply createCustomFolder_panics. set_solver.
    + intros id. destruct (Qeq_bool id 0); [apply panics_within_klog | apply Hall].
Qed.

(** Behind the filter the type assertions on the object never fail: the
    handler of additions panics only at the float64 assertion of the folder
    resolver or at the assignment into the nil map of a [null] payload, the
    handler of deletions only at the string assertion on a uid, and the
    handler of updates, when the old object is a ConfigMap, where the handler
    of additions does. *)
Theorem handler_panics (fuel : nat) (obj : Obj) :
  panics_within [not_float64; nil_map_write] (AddFunc fuel obj)
  ∧ panics_within [not_string] (DeleteFunc obj)
  ∧ (∀ old new oldcm,
       object old = ObjConfigMap (Some oldcm) →
       panics_within [not_float64; nil_map_write] (UpdateFunc fuel old new)).
Proof.
  assert (∀ obj', isDesiredDashboardConfigmap obj' = true →
                  ∃ cm, obj' = ObjConfigMap (Some cm)) as Hcm.
  { intros [[cm|]|]; [eauto | done..]. }
  split_and!.
  - unfold AddFunc. destruct (isDesiredDashboardConfigmap obj) eqn:Hd;
      [|apply panics_within_ret].
    destruct (Hcm _ Hd) as [cm ->]. cbn [negb].
    apply panics_within_bind; [apply panics_within_klog|].
    intros _. apply updateDashboard_panics.
  - unfold DeleteFunc. destruct (isDesiredDashboardConfigmap obj) eqn:Hd;
      [|apply panics_within_ret].
    destruct (Hcm _ Hd) as [cm ->]. cbn [negb].
    apply panics_within_bind; [apply panics_within_klog|]. intros _.
    intros w. rewrite deleteDashboard_run.
    generalize (mapRange (Data cm) w).2. generalize (mapRange (Data cm) w).1.
    intros entries. induction entries as [|[key value] rest IH]; intros w1 m; [done|].
    destruct (Unmarshal_map value) as [dashboard|] eqn:Hparse.
    2: { cbn [deleteDashboard_loop]. by rewrite Hparse. }
    rewrite (deleteDashboard_loop_step _ _ _ _ _ _ Hparse). revert w1 m.
    apply panics_within_bind.
    { destruct (negb _); [apply panics_within_assert_string; set_solver
                         | apply panics_within_ret]. }
    intros uid. apply panics_within_bind; [apply panics_within_request|].
    intros resp. apply panics_within_bind; [apply panics_within_klog|]. done.
  - intros old new oldcm Hold. unfold UpdateFunc. rewrite Hold.
    destruct (isDesiredDashboardConfigmap (object new)) eqn:Hd;
      [|apply panics_within_ret].
    destruct (Hcm _ Hd) as [cm ->]. cbn [negb asConfigMap].
    apply panics_within_bind; [apply panics_within_ret|]. intros oldcm'.
    apply panics_within_bind; [apply panics_within_ret|]. intros newcm.
    destruct (negb _); [|apply panics_within_ret].
    apply panics_within_bind; [apply panics_within_klog|].
    intros _. apply updateDashboard_panics.
Qed.

(** ** Every entry is served *)

Lemma entries_range (m : gmap string string) (w : World) key value :
  m !! key = Some value → (key, value) ∈ (mapRange m w).1.
Proof. rewrite (mapRange_perm m w). apply elem_of_map_to_list. Qed.

Lemma deleteDashboard_loop_reaches cm entries w key value dashboard :
  Forall (λ kv, deletable kv.2) entries →
  (key, value) ∈ entries →
  Unmarshal_map value = Some dashboard →
  ∃ resp status,
    Call "DELETE" (deleteURL (delete_target cm dashboard)) None resp status
    ∈ trace (deleteDashboard_loop cm entries w).
Proof.
  intros Hall. revert w.
  induction Hall as [|[k v] rest Hkv _ IH]; intros w Hin Hparse.
  { by apply elem_of_nil in Hin. }
  destruct Hkv as (d & Hd & Huid).
  destruct (deleteDashboard_loop_deletable cm k v rest d w Hd Huid)
    as (resp & status & w1 & severity & msg & ->).
  cbn [after_event trace].
  apply elem_of_cons in Hin as [[= -> ->] | Hin].
  - cbn in Hd. assert (d = dashboard) as -> by congruence.
    exists resp, status. apply list_elem_of_here.
  - destruct (IH w1 Hin Hparse) as (r & s & Hr). exists r, s.
    by do 2 apply list_elem_of_further.
Qed.

(** When every payload of [Data] parses and has no uid or a string for uid,
    the dashboard of every entry is asked to be deleted, in whatever order
    the entries are visited and whatever the service answers. *)
Theorem delete_reaches_every_entry (cm : ConfigMap) (w : World)
    (key value : string) (dashboard : GoMap) :
  (∀ key value, Data cm !! key = Some value → deletable value) →
  Data cm !! key = Some value →
  Unmarshal_map value = Some dashboard →
  ∃ resp status,
    Call "DELETE" (deleteURL (delete_target cm dashboard)) None resp status
    ∈ trace (deleteDashboard (ObjConfigMap (Some cm)) w).
Proof.
  intros Hall Hkv Hparse. rewrite deleteDashboard_run.
  apply deleteDashboard_loop_reaches with key value; [|by apply entries_range|done].
  apply Forall_forall. intros [k v] Hin. apply (Hall k). by apply (range_entries _ w).
Qed.

Lemma updateDashboard_loop_reaches again cm folderID overwrite entries w
    key value dashboard b :
  mismatches (trace (updateDashboard_loop again cm folderID overwrite entries w)) = 0%nat →
  Forall (λ kv, upsertable cm folderID overwrite kv.2) entries →
  (key, value) ∈ entries →
  Unmarshal_map value = Some (a_map dashboard) →
  json_Marshal (upsertRequest folderID overwrite (submitted_for cm dashboard)) = Some b →
  ∃ resp status,
    Call "POST" dashboardsURL (Some b) resp status
    ∈ trace (updateDashboard_loop again cm folderID overwrite entries w).
Proof.
  intros Hquiet Hall. revert w Hquiet.
  induction Hall as [|[k v] rest Hkv _ IH]; intros w Hquiet Hin Hparse Hb.
  { by apply elem_of_nil in Hin. }
  destruct Hkv as (d & Hd & [b' Hb']). cbn in Hd.
  revert Hquiet. rewrite (updateDashboard_loop_step _ _ _ _ _ _ _ _ _ _ Hd Hb').
  cbv zeta. unfold after_event. cbn [trace]. rewrite mismatches_upsert.
  destruct (is_version_mismatch _ _); [done|]. cbn [Nat.add].
  rewrite bind_run. cbn [klog outcome final trace app]. intros Hquiet.
  change (mismatches (Log Info ?m :: ?t)) with (mismatches t) in Hquiet.
  apply elem_of_cons in Hin as [[= -> ->] | Hin].
  - assert (d = dashboard) as -> by congruence.
    assert (b' = b) as -> by congruence.
    eexists _, _. apply list_elem_of_here.
  - destruct (IH _ Hquiet Hin Hparse Hb) as (r & s & Hr). exists r, s.
    by do 2 apply list_elem_of_further.
Qed.

(** When every payload of [Data] can be turned into a request and the
    service answers no version mismatch, the document of every entry is
    submitted, in whatever order the entries are visited: the request is the
    one written from the payload, the folder id and the overwrite flag. *)
Theorem upsert_reaches_every_entry (fuel : nat) (cm : ConfigMap) (overwrite : bool)
    (w : World) (folderID : Q) (w1 : World)
    (key value : string) (dashboard : gmap string JSON) (b : string) :
  after_folder cm w = Some (folderID, w1) →
  (∀ key value, Data cm !! key = Some value → upsertable cm folderID overwrite value) →
  mismatches (trace (updateDashboard (S fuel) (ObjConfigMap (Some cm)) overwrite w)) = 0%nat →
  Data cm !! key = Some value →
  Unmarshal_map value = Some (a_map dashboard) →
  json_Marshal (upsertRequest folderID overwrite (submitted_for cm dashboard)) = Some b →
  ∃ resp status,
    Call "POST" dashboardsURL (Some b) resp status
    ∈ trace (updateDashboard (S fuel) (ObjConfigMap (Some cm)) overwrite w).
Proof.
  intros Hstart Hall Hquiet Hkv Hparse Hb.
  destruct (updateDashboard_from_loop fuel cm overwrite w folderID w1 Hstart)
    as (_ & _ & Hmis). cbv zeta in Hmis. rewrite Hmis in Hquiet.
  assert (Forall (λ kv : string * string, upsertable cm folderID overwrite kv.2)
            (mapRange (Data cm) w1).1) as Hfa.
  { apply Forall_forall. intros [k v] Hin. apply (Hall k). by apply (range_entries _ w1). }
  destruct (updateDashboard_loop_reaches _ _ _ _ _ _ key value dashboard b
              Hquiet Hfa (entries_range _ w1 _ _ Hkv) Hparse Hb) as (resp & status & Hin).
  exists resp, status. revert Hstart Hin. unfold after_folder.
  destruct (decide (uses_general_folder cm)) as [Hg|Hg].
  - intros [= <- <-]. rewrite updateDashboard_general by done.
    by rewrite range_bind_run.
  - rewrite updateDashboard_folder by done. rewrite trace_bind.
    destruct (outcome (createCustomFolder (folder_title cm) w)) as [id| |]; [|done..].
    destruct (Qeq_bool id 0); [done|]. intros [= <- <-] Hin.
    apply elem_of_app. right. by rewrite range_bind_run.
Qed.

(** ** What the upsert engine submits, the deletion engine deletes *)

Lemma submitted_uid cm (dashboard : gmap string JSON) :
  is_nil (dashboard !! "uid") = true ∨ (∃ uid, dashboard !! "uid" = Some (JString uid)) →
  submitted_for cm dashboard !! "uid"
  = Some (JString (delete_target cm (a_map dashboard))).
Proof.
  unfold submitted_for, delete_target.
  change (a_map dashboard !! "uid") with (dashboard !! "uid").
  intros [Hnil | [uid Huid]].
  - rewrite Hnil, lookup_insert_ne by done. rewrite lookup_insert_eq.
    by destruct (dashboard !! "uid") as [[]|].
  - rewrite Huid. cbn [is_nil]. by rewrite lookup_insert_ne.
Qed.

(** When every payload of [Data] parses and has no uid or a string for uid,
    every dashboard that the upsert engine submits, retries included, carries
    a uid that the deletion engine asks to delete when the resource goes: the
    uid of the payload, or the one both engines derive from the name and the
    namespace of the resource. *)
Theorem upserted_uid_is_deleted (fuel : nat) (cm : ConfigMap) (overwrite : bool)
    (w : World) :
  (∀ key value, Data cm !! key = Some value → deletable value) →
  Forall (undone_by_delete cm)
         (trace (updateDashboard fuel (ObjConfigMap (Some cm)) overwrite w)).
Proof.
  intros Hall. apply updateDashboard_always; [|done|].
  - intros key value dashboard b folderID ow resp status Hkv Hparse Hb _ _.
    destruct (Hall key value Hkv) as (d & Hd & Huid).
    assert (d = a_map dashboard) as -> by congruence.
    exists folderID, ow, (submitted_for cm dashboard),
           (delete_target cm (a_map dashboard)).
    split_and!; [done | done | by apply submitted_uid |].
    intros w'. rewrite deleteDashboard_run.
    apply deleteDashboard_loop_reaches with key value; [|by apply entries_range|done].
    apply Forall_forall. intros [k v] Hin. apply (Hall k). by apply (range_entries _ w').
  - intros [m u b r s|]; [|done]. intros [-> _] Hu.
    by destruct foldersURL_not_dashboardsURL.
Qed.

(** ** The run of the engine, entry by entry *)

(** The run of the engine, once the folder is known: the events of the
    folder resolution, then the loop over the entries in the order of the
    visit, with the engine itself, asked to overwrite, as the retry. *)
Lemma updateDashboard_run fuel cm overwrite w folderID w1 :
  after_folder cm w = Some (folderID, w1) →
  let l := updateDashboard_loop (updateDashboard fuel (ObjConfigMap (Some cm)) true)
             cm folderID overwrite (mapRange (Data cm) w1).1 (mapRange (Data cm) w1).2 in
  updateDashboard (S fuel) (ObjConfigMap (Some cm)) overwrite w
  = MkRun (outcome l) (final l) (folder_events cm w ++ trace l).
Proof.
  unfold after_folder, folder_events. intros Hstart. cbv zeta.
  destruct (decide (uses_general_folder cm)) as [Hg|Hg].
  - injection Hstart as <- <-. rewrite updateDashboard_general by done.
    rewrite range_bind_run. cbn [app]. by rewrite run_eta.
  - rewrite updateDashboard_folder by done. rewrite bind_run.
    destruct (outcome (createCustomFolder (folder_title cm) w)) as [id| |]; [|done..].
    destruct (Qeq_bool id 0); [done|]. injection Hstart as <- <-.
    by rewrite range_bind_run.
Qed.

Lemma updateDashboard_loop_app again cm folderID overwrite pre rest w :
  Forall (λ kv, upsertable cm folderID overwrite kv.2) pre →
  updateDashboard_loop again cm folderID overwrite (pre ++ rest) w
  = (updateDashboard_loop again cm folderID overwrite pre
     ≫= λ _, updateDashboard_loop again cm folderID overwrite rest) w.
Proof.
  intros Hpre. revert w. induction Hpre as [|[k v] pre Hkv _ IH]; intros w.
  { change (updateDashboard_loop again cm folderID overwrite []) with (ret tt).
    by rewrite bind_ret_l. }
  destruct Hkv as (d & Hd & [b Hb]). cbn in Hd. cbn [app].
  rewrite (bind_after_event _ _ _ _ _ _
             (updateDashboard_loop_step again cm folderID overwrite k v pre d b w Hd Hb)).
  rewrite (updateDashboard_loop_step _ _ _ _ _ _ _ _ _ _ Hd Hb). cbv zeta.
  f_equal. rewrite bind_assoc. apply bind_ext. intros _ w'. apply IH.
Qed.

(** C1, as the code has it: when the engine reaches an entry and the service
    answers its upsert with 412 and "version-mismatch", the run goes on with
    the engine itself, called for the whole resource with overwrite=true,
    and then with the entries that are left, under the overwrite flag and in
    the folder of the invocation.  This holds of every invocation, whether
    it asks to overwrite or not: the code keeps no count of the retries.  The
    calls nest one level deep, and no deeper, when the service answers no
    version mismatch to a request that asks to overwrite. *)
Theorem version_mismatch_retries (fuel : nat) (cm : ConfigMap) (overwrite : bool)
    (w : World) (folderID : Q) (w1 : World) (pre rest : list (string * string))
    (key value : string) (dashboard : gmap string JSON) (b : string) :
  let obj := ObjConfigMap (Some cm) in
  let again := updateDashboard fuel obj true in
  let loop := updateDashboard_loop again cm folderID overwrite in
  let before := loop pre (mapRange (Data cm) w1).2 in
  let answer := SetRequest "POST" dashboardsURL (Some b) retry (final before) in
  let after := (again ≫= λ _, loop rest) answer.2 in
  after_folder cm w = Some (folderID, w1) →
  (mapRange (Data cm) w1).1 = pre ++ (key, value) :: rest →
  Forall (λ kv, upsertable cm folderID overwrite kv.2) pre →
  outcome before = Returned tt →
  Unmarshal_map value = Some (a_map dashboard) →
  json_Marshal (upsertRequest folderID overwrite (submitted_for cm dashboard)) = Some b →
  is_version_mismatch answer.1.1 answer.1.2 = true →
  updateDashboard (S fuel) obj overwrite w
  = MkRun (outcome after) (final after)
      (folder_events cm w
       ++ trace before
       ++ Call "POST" dashboardsURL (Some b) answer.1.1 answer.1.2 :: trace after)
  ∧ (overwrite_never_mismatches →
     ∀ fuel' obj' overwrite', terminates (updateDashboard (S (S fuel')) obj' overwrite')).
Proof.
  intros obj again loop before answer after Hstart Hentries Hpre Hbefore Hparse Hb Hmis.
  split.
  - subst obj. rewrite (updateDashboard_run _ _ _ _ _ _ Hstart). cbv zeta.
    rewrite Hentries, (updateDashboard_loop_app _ _ _ _ _ _ _ Hpre).
    fold again. fold loop. fold before. rewrite bind_run. fold before.
    rewrite Hbefore. subst loop.
    rewrite (updateDashboard_loop_step _ _ _ _ _ _ _ _ _ _ Hparse Hb).
    cbv zeta. fold answer. rewrite Hmis. fold after.
    unfold after_event. cbn [outcome final trace]. done.
  - intros Hsvc fuel' obj' overwrite'. by apply updateDashboard_terminates.
Qed.

(** The request of an entry that the loop reaches is sent. *)
Lemma updateDashboard_loop_submits again cm folderID overwrite pre key value post
    dashboard b w :
  let l := updateDashboard_loop again cm folderID overwrite (pre ++ (key, value) :: post) w in
  outcome l = Returned tt ∨ mismatches (trace l) = 0%nat →
  Forall (λ kv, upsertable cm folderID overwrite kv.2) pre →
  Unmarshal_map value = Some (a_map dashboard) →
  json_Marshal (upsertRequest folderID overwrite (submitted_for cm dashboard)) = Some b →
  ∃ resp status, Call "POST" dashboardsURL (Some b) resp status ∈ trace l.
Proof.
  cbv zeta. intros Hrun Hpre Hparse Hb. revert w Hrun.
  induction Hpre as [|[k v] pre Hkv _ IH]; intros w; cbn [app].
  { rewrite (updateDashboard_loop_step _ _ _ _ _ _ _ _ _ _ Hparse Hb). cbv zeta.
    intros _. eexists _, _. apply list_elem_of_here. }
  destruct Hkv as (d & Hd & [b' Hb']). cbn in Hd.
  rewrite (updateDashboard_loop_step _ _ _ _ _ _ _ _ _ _ Hd Hb'). cbv zeta.
  destruct (SetRequest "POST" dashboardsURL (Some b') retry w) as [[resp status] w1].
  cbn [fst snd]. unfold after_event. cbn [outcome trace].
  rewrite mismatches_upsert, outcome_bind, trace_bind, mismatches_app.
  destruct (is_version_mismatch resp status); cbv iota.
  - intros [Hout | Hquiet]; [|discriminate].
    destruct (outcome (again w1)) as [[]| |]; [|discriminate..].
    destruct (IH _ (or_introl Hout)) as (r & s & Hin). exists r, s.
    apply list_elem_of_further, elem_of_app. by right.
  - cbn [klog outcome final trace].
    change (mismatches [Log Info _]) with 0%nat. cbn [Nat.add].
    intros Hrun. destruct (IH _ Hrun) as (r & s & Hin). exists r, s.
    by do 2 apply list_elem_of_further.
Qed.

(** C4: every upsert request that [updateDashboard] sends is the request of
    a payload of [Data] that parsed to a map; its dashboard has the uid of
    the payload when the payload has one, the uid derived from the name and
    the namespace of the resource when it has none, a null id, and the other
    fields of the payload.  And the engine does send it: for the entry that
    the loop reaches, in a run that returns or in a run without version
    mismatch, the request written from that dashboard, the folder id and the
    overwrite flag is among the upserts of the run. *)
Theorem upsert_carries_uid_and_null_id (fuel : nat) (cm : ConfigMap)
    (overwrite : bool) (w : World) :
  let r := updateDashboard fuel (ObjConfigMap (Some cm)) overwrite w in
  Forall (upsert_well_formed cm (λ _, True)) (trace r)
  ∧ ∀ (folderID : Q) (w1 : World) (pre post : list (string * string))
      (key value : string) (dashboard : gmap string JSON),
      after_folder cm w = Some (folderID, w1) →
      (mapRange (Data cm) w1).1 = pre ++ (key, value) :: post →
      Forall (λ kv, upsertable cm folderID overwrite kv.2) pre →
      outcome r = Returned tt ∨ (fuel ≠ 0%nat ∧ mismatches (trace r) = 0%nat) →
      Unmarshal_map value = Some (a_map dashboard) →
      let submitted := submitted_for cm dashboard in
      submitted !! "id" = Some JNull
      ∧ submitted !! "uid"
        = (if is_nil (dashboard !! "uid")
           then Some (JString (GenerateUID (Name cm) (Namespace cm)))
           else dashboard !! "uid")
      ∧ (∀ k, k ≠ "id" → k ≠ "uid" → submitted !! k = dashboard !! k)
      ∧ ∀ b, json_Marshal (upsertRequest folderID overwrite submitted) = Some b →
             ∃ resp status,
               Call "POST" dashboardsURL (Some b) resp status ∈ trace r.
Proof.
  cbv zeta. split.
  - revert overwrite w. induction fuel as [|fuel IH]; intros overwrite w.
    { constructor. }
    assert (∀ folderID, always (upsert_well_formed cm (λ _, True))
                               (upsert_all fuel cm overwrite folderID)) as Hall.
    { intros folderID. apply always_range_bind. intros entries Hin.
      apply updateDashboard_loop_always; [|done|intros w'; apply IH].
      intros key value dashboard b resp status Hkv Hparse Hb _.
      exists key, value, dashboard, (submitted_for cm dashboard), folderID, overwrite.
      split_and!; auto using submitted_for_id, submitted_for_uid, submitted_for_other. }
    destruct (decide (uses_general_folder cm)) as [Hg|Hg].
    + rewrite updateDashboard_general by done. apply Hall.
    + rewrite updateDashboard_folder by done. revert w. apply always_bind.
      * eapply always_mono; [|apply createCustomFolder_on_folders].
        apply on_folders_well_formed.
      * intros id. destruct (Qeq_bool id 0); [by apply always_klog | apply Hall].
  - intros folderID w1 pre post key value dashboard Hstart Hentries Hpre Hrun Hparse.
    split_and!; auto using submitted_for_id, submitted_for_uid, submitted_for_other.
    intros b Hb. destruct fuel as [|fuel]; [by destruct Hrun as [|[]]|].
    revert Hrun. rewrite (updateDashboard_run _ _ _ _ _ _ Hstart). cbv zeta.
    rewrite Hentries. cbn [outcome trace].
    rewrite mismatches_app. intros Hrun.
    destruct (updateDashboard_loop_submits
                (updateDashboard fuel (ObjConfigMap (Some cm)) true)
                cm folderID overwrite pre key value post dashboard b
                (mapRange (Data cm) w1).2) as (resp & status & Hin); [|done..|].
    { destruct Hrun as [Hout | [_ Hquiet]]; [by left | right].
      clear -Hquiet. lia. }
    exists resp, status. apply elem_of_app. by right.
Qed.

End Engines.

(** * The theorems at work, on the concrete outside world *)

Module Examples.
Import Demo.

(** ** The selection filter: the truth table of section 8 *)

Example label_in_capitals_accepted :
  isDesiredDashboardConfigmap
    (acme_obj {[ "grafana-custom-dashboard" := "TRUE" ]} ∅) = true.
Proof. reflexivity. Qed.

Example owned_by_observability_accepted :
  isDesiredDashboardConfigmap
    (ObjConfigMap (Some (owned "grafana-dashboard-x" "MultiClusterObservability")))
  = true.
Proof. reflexivity. Qed.

Example owned_by_other_rejected :
  isDesiredDashboardConfigmap
    (ObjConfigMap (Some (owned "grafana-dashboard-x" "Other"))) = false.
Proof. reflexivity. Qed.

Example no_label_no_owner_rejected :
  isDesiredDashboardConfigmap (acme_obj ∅ ∅) = false.
Proof. reflexivity. Qed.

(** ** The end-to-end scenario of section 8 *)

Example acme_upsert :
  trace (updateDashboard (H := env) 1 (acme_obj custom one_dashboard) false fresh)
  = [Call "GET" foldersURL None "[]" 200;
     Call "POST" foldersURL (Some (js "{'title':'Custom'}"))
          (js "{'id':1,'title':'Custom'}") 200;
     Call "POST" dashboardsURL
          (Some (js "{'dashboard':{'id':null,'title':'A','uid':'acme-grafana-dashboard-ns1'},'folderId':1,'overwrite':false}"))
          (js "{'status':'success'}") 200;
     Log Info "Dashboard created/updated"].
Proof. vm_compute. reflexivity. Qed.

Example acme_delete :
  trace (deleteDashboard (H := env) (acme_obj custom one_dashboard) fresh)
  = [Call "DELETE" (deleteURL "acme-grafana-dashboard-ns1") None
          (js "{'message':'Dashboard deleted'}") 200;
     Log Info "Dashboard deleted"].
Proof. vm_compute. reflexivity. Qed.

(** The payload [null] parses, to a nil map: the deletion reads it as a
    payload without uid, and the upsert panics when it stores the uid. *)
Example null_payload_deleted :
  calls (trace (deleteDashboard (H := env) (acme_obj custom {[ "d1" := "null" ]}) fresh))
  = [Call "DELETE" (deleteURL "acme-grafana-dashboard-ns1") None
          (js "{'message':'Dashboard deleted'}") 200].
Proof. vm_compute. reflexivity. Qed.

Example null_payload_panics_upsert :
  let r := updateDashboard (H := env) 1 (acme_obj general {[ "d1" := "null" ]}) false fresh in
  outcome r = Panicked "assignment to entry in nil map" ∧ trace r = [].
Proof. cbv zeta. split; vm_compute; reflexivity. Qed.

(** Both documents of a resource are submitted, the first with the derived
    uid, the second with its own uid and without the id it came with; the
    service refuses the first with name-exists. *)
Lemma upsert_carries_uid_and_null_id_witness :
  let w := {| folders := []; answers := [name_exists] |} in
  let r := updateDashboard (H := env) 1 (acme_obj general two_dashboards) false w in
  (∃ resp status,
     Call "POST" dashboardsURL
       (Some (js "{'dashboard':{'id':null,'title':'A','uid':'acme-grafana-dashboard-ns1'},'folderId':0,'overwrite':false}"))
       resp status ∈ trace r)
  ∧ (∃ resp status,
       Call "POST" dashboardsURL
         (Some (js "{'dashboard':{'id':null,'title':'B','uid':'b-uid'},'folderId':0,'overwrite':false}"))
         resp status ∈ trace r).
Proof.
  intros w r. split.
  - refine (proj2 (proj2 (proj2
              (proj2 (upsert_carries_uid_and_null_id (H := env) 1
                        (acme general two_dashboards) false w)
                 0%Q w [] [("d2", js "{'title':'B','uid':'b-uid','id':7}")]
                 "d1" (js "{'title':'A'}") (fields_to_map [("title", JString "A")])
                 _ _ _ _ _))) _ _).
    + vm_compute. reflexivity.
    + vm_compute. reflexivity.
    + constructor.
    + left. vm_compute. reflexivity.
    + vm_compute. reflexivity.
    + vm_compute. reflexivity.
  - refine (proj2 (proj2 (proj2
              (proj2 (upsert_carries_uid_and_null_id (H := env) 1
                        (acme general two_dashboards) false w)
                 0%Q w [("d1", js "{'title':'A'}")] []
                 "d2" (js "{'title':'B','uid':'b-uid','id':7}")
                 (fields_to_map [("title", JString "B"); ("uid", JString "b-uid");
                                 ("id", JNumber 7)])
                 _ _ _ _ _))) _ _).
    + vm_compute. reflexivity.
    + vm_compute. reflexivity.
    + repeat constructor. eexists. split; [vm_compute; reflexivity | eexists; vm_compute; reflexivity].
    + right. split; [discriminate | vm_compute; reflexivity].
    + vm_compute. reflexivity.
    + vm_compute. reflexivity.
Defined.

(** ** Retries *)

(** C1, as the specification states it, fails: the service answers a version
    mismatch to the first upsert and to the retry that asks to overwrite, and
    the engine retries a second time. *)
Lemma second_mismatch_is_retried_again :
  calls (trace (updateDashboard (H := env) 3 (acme_obj general one_dashboard) false
                  {| folders := []; answers := [version_mismatch; version_mismatch] |}))
  = [Call "POST" dashboardsURL
          (Some (js "{'dashboard':{'id':null,'title':'A','uid':'acme-grafana-dashboard-ns1'},'folderId':0,'overwrite':false}"))
          version_mismatch.1 412;
     Call "POST" dashboardsURL
          (Some (js "{'dashboard':{'id':null,'title':'A','uid':'acme-grafana-dashboard-ns1'},'folderId':0,'overwrite':true}"))
          version_mismatch.1 412;
     Call "POST" dashboardsURL
          (Some (js "{'dashboard':{'id':null,'title':'A','uid':'acme-grafana-dashboard-ns1'},'folderId':0,'overwrite':true}"))
          (js "{'status':'success'}") 200].
Proof. vm_compute. reflexivity. Qed.

(** The retry of a request that asked to overwrite: the service answers a
    version mismatch to it, and the run goes on with the engine, one level
    down. *)
Lemma version_mismatch_retries_witness :
  let cm := acme general one_dashboard in
  let obj := ObjConfigMap (Some cm) in
  let w := {| folders := []; answers := [version_mismatch] |} in
  let body := js "{'dashboard':{'id':null,'title':'A','uid':'acme-grafana-dashboard-ns1'},'folderId':0,'overwrite':true}" in
  let again := updateDashboard (H := env) 1 obj true in
  let after := (again ≫= λ _, updateDashboard_loop (H := env) again cm 0%Q true []) fresh in
  updateDashboard (H := env) 2 obj true w
  = MkRun (H := env) (outcome after) (final after)
      (folder_events (H := env) cm w
       ++ trace (updateDashboard_loop (H := env) again cm 0%Q true [] w)
       ++ Call "POST" dashboardsURL (Some body) version_mismatch.1 412 :: trace after).
Proof.
  intros cm obj w body again after.
  refine (proj1 (version_mismatch_retries (H := env) 1 cm true w 0%Q w [] []
                   "d1" (js "{'title':'A'}") (fields_to_map [("title", JString "A")])
                   body _ _ _ _ _ _ _)).
  - vm_compute. reflexivity.
  - vm_compute. reflexivity.
  - constructor.
  - reflexivity.
  - vm_compute. reflexivity.
  - vm_compute. reflexivity.
  - vm_compute. reflexivity.
Defined.

(** With a service that refuses every upsert that does not ask to overwrite,
    each of the two documents of a resource costs a retry of the whole
    resource: there is one retry for each version mismatch, not one for the
    resource. *)
Example one_retry_for_each_mismatch :
  let r := updateDashboard (H := contended) 2 (acme_obj general two_dashboards)
             false fresh in
  outcome r = Returned tt
  ∧ mismatches (trace r) = 2%nat
  ∧ count_calls "POST" dashboardsURL (trace r) = 6%nat.
Proof. cbv zeta. split_and!; vm_compute; reflexivity. Qed.

(** ** The folder resolver *)

(** Section 8: two resolutions of "Custom" against a fresh service give one
    folder and the same id, and the second creates nothing. *)
Example custom_resolved_twice :
  let r1 := createCustomFolder (H := env) "Custom" fresh in
  let r2 := createCustomFolder (H := env) "Custom" (final r1) in
  outcome r1 = Returned 1%Q
  ∧ outcome r2 = Returned 1%Q
  ∧ count_calls "POST" foldersURL (trace r2) = 0%nat
  ∧ folders (final r2) = [(1, "Custom")].
Proof. cbv zeta. split_and!; vm_compute; reflexivity. Qed.

(** C3 fails on a title that holds a double quote: [createCustomFolder]
    pastes the title into the JSON text of the request as it is, the service
    reads another title from that text, and the second resolution does not
    find the title it looks for: it creates a second folder and returns
    another id. *)
Lemma injected_title_resolved_twice :
  let r1 := createCustomFolder (H := env) injected_title fresh in
  let r2 := createCustomFolder (H := env) injected_title (final r1) in
  calls (trace r1)
  = [Call "GET" foldersURL None "[]" 200;
     Call "POST" foldersURL (Some (js "{'title':'a','x':'b'}"))
          (js "{'id':1,'title':'a'}") 200]
  ∧ outcome r1 = Returned 1%Q
  ∧ calls (trace r2)
    = [Call "GET" foldersURL None (js "[{'id':1,'title':'a'}]") 200;
       Call "POST" foldersURL (Some (js "{'title':'a','x':'b'}"))
            (js "{'id':2,'title':'a'}") 200]
  ∧ outcome r2 = Returned 2%Q
  ∧ folders (final r2) = [(1, "a"); (2, "a")].
Proof. cbv zeta. split_and!; vm_compute; reflexivity. Qed.

(** The same through the engine: a resource whose folder annotation holds
    that title gets a new folder at each upsert. *)
Example injected_title_upserted_twice :
  let obj := ObjConfigMap (Some (with_folder injected_title (acme custom one_dashboard))) in
  let r1 := updateDashboard (H := env) 1 obj false fresh in
  let r2 := updateDashboard (H := env) 1 obj false (final r1) in
  folders (final r2) = [(1, "a"); (2, "a")].
Proof. vm_compute. reflexivity. Qed.

Lemma folder_without_numeric_id_panics_witness :
  (∃ msg, outcome (createCustomFolder (H := scripted) "Custom"
                     [(js "[{'title':'Custom','id':'7'}]", 200)]) = Panicked msg)
  ∧ (∃ msg, outcome (createCustomFolder (H := env) (js "a'b") fresh) = Panicked msg).
Proof.
  split.
  - refine (proj1 (folder_without_numeric_id_panics (H := scripted) "Custom"
                     [(js "[{'title':'Custom','id':'7'}]", 200)]
                     (a_map (fields_to_map [("title", JString "Custom"); ("id", JString "7")]))
                     _ _)).
    + intros x. vm_compute. discriminate.
    + left. exists [], []. split_and!; [vm_compute; reflexivity | constructor | reflexivity].
  - refine (proj1 (folder_without_numeric_id_panics (H := env) (js "a'b") fresh
                     (a_map (fields_to_map [("message", JString "bad request data")]))
                     _ _)).
    + intros x. vm_compute. discriminate.
    + right. exists 0%Q. split_and!; vm_compute; reflexivity.
Defined.

(** ** The folder of an upsert *)

Lemma folder_id_zero_aborts_witness :
  let w := [("[]", 200); (js "{'id':0,'title':'Custom'}", 200)] in
  let r := updateDashboard (H := scripted) 1 (acme_obj custom two_dashboards) false w in
  r = MkRun (H := scripted) (Returned tt) []
        [Call "GET" foldersURL None "[]" 200;
         Call "POST" foldersURL (Some (js "{'title':'Custom'}"))
              (js "{'id':0,'title':'Custom'}") 200;
         Log Error "Failed to get custom folder id"]
  ∧ count_calls "POST" dashboardsURL (trace r) = 0%nat.
Proof.
  intros w r.
  refine (folder_id_zero_aborts (H := scripted) 0 (acme custom two_dashboards)
            false w 0%Q _ _ _).
  - vm_compute. tauto.
  - vm_compute. reflexivity.
  - reflexivity.
Defined.

Lemma folder_resolved_once_per_invocation_witness :
  let w := [(js "[{'id':3,'title':'Custom'}]", 200); version_mismatch;
            (js "[{'id':3,'title':'Custom'}]", 200)] in
  let r := updateDashboard (H := scripted) 2 (acme_obj custom two_dashboards) false w in
  count_calls "GET" foldersURL (trace r) = 2%nat
  ∧ count_calls "POST" dashboardsURL (trace r) = 4%nat.
Proof.
  intros w r. split; [|vm_compute; reflexivity].
  assert (mismatches (trace r) = 1%nat) as <- by (vm_compute; reflexivity).
  refine (proj2 (proj2 (folder_resolved_once_per_invocation (H := scripted) 1
                          (acme custom two_dashboards) false w) _) _).
  - vm_compute. tauto.
  - vm_compute. discriminate.
Defined.

(** ** The deletion engine *)



Lemma delete_targets_payload_or_derived_uid_witness :
  let deletes :=
    List.filter (is_method "DELETE")
      (trace (deleteDashboard (H := env) (acme_obj custom two_dashboards) fresh)) in
  (∃ resp status,
     deletes !! 0%nat
     = Some (Call "DELETE" (deleteURL "acme-grafana-dashboard-ns1") None resp status))
  ∧ (∃ resp status,
       deletes !! 1%nat = Some (Call "DELETE" (deleteURL "b-uid") None resp status)).
Proof.
  intros deletes. split.
  - refine (proj1 (delete_targets_payload_or_derived_uid (H := env)
                     (acme custom two_dashboards) fresh []
                     [("d2", js "{'title':'B','uid':'b-uid','id':7}")]
                     "d1" (js "{'title':'A'}")
                     (a_map (fields_to_map [("title", JString "A")])) _ _ _) _);
      [vm_compute; reflexivity | constructor | vm_compute; reflexivity
      | vm_compute; reflexivity].
  - refine (proj2 (delete_targets_payload_or_derived_uid (H := env)
                     (acme custom two_dashboards) fresh
                     [("d1", js "{'title':'A'}")] []
                     "d2" (js "{'title':'B','uid':'b-uid','id':7}")
                     (a_map (fields_to_map [("title", JString "B"); ("uid", JString "b-uid");
                                     ("id", JNumber 7)])) _ _ _) "b-uid" _);
      [vm_compute; reflexivity | | vm_compute; reflexivity | vm_compute; reflexivity].
    repeat constructor. exists (a_map (fields_to_map [("title", JString "A")])).
    split; [vm_compute; reflexivity | left; vm_compute; reflexivity].
Defined.

Lemma delete_non_string_uid_panics_witness :
  let obj := acme_obj custom good_then_numeric_uid in
  ∃ msg,
    outcome (deleteDashboard (H := env) obj fresh) = Panicked msg
    ∧ (isDesiredDashboardConfigmap obj = true →
       outcome (DeleteFunc (H := env) obj fresh) = Panicked msg)
    ∧ count_method "DELETE" (trace (deleteDashboard (H := env) obj fresh)) = 1%nat.
Proof.
  refine (delete_non_string_uid_panics (H := env) (acme custom good_then_numeric_uid)
            fresh [("a", js "{'title':'A','uid':'a-uid'}")] [("c", js "{'title':'C'}")]
            "b" (js "{'title':'B','uid':5}")
            (a_map (fields_to_map [("title", JString "B"); ("uid", JNumber 5)]))
            (JNumber 5) _ _ _ _ _ _);
    [vm_compute; reflexivity | | vm_compute; reflexivity | vm_compute; reflexivity
    | discriminate | discriminate].
  repeat constructor.
  exists (a_map (fields_to_map [("title", JString "A"); ("uid", JString "a-uid")])).
  split; [vm_compute; reflexivity | right; exists "a-uid"; vm_compute; reflexivity].
Defined.

(** ** The depth of the retries follows the service *)

Lemma app_assoc_string (s1 s2 s3 : string) :
  (s1 +:+ s2) +:+ s3 = s1 +:+ (s2 +:+ s3).
Proof.
  induction s1 as [|c s1 IH]; [done|].
  by rewrite !app_String, IH.
Qed.

(** The request that asks to overwrite says so in its text. *)
Lemma overwrite_is_written folderID dashboard b :
  write_json (upsertRequest folderID true dashboard) = Some b →
  Contains b (quoted "overwrite" +:+ ":true") = true.
Proof.
  unfold upsertRequest. cbn [write_json].
  destruct (write_json (map_to_object dashboard)) as [a|]; [|discriminate].
  destruct (Qden folderID =? 1)%positive; [|discriminate].
  intros [= <-]. apply Contains_substring.
  exists ("{" +:+ quoted "dashboard" +:+ ":" +:+ a +:+ "," +:+ quoted "folderId"
          +:+ ":" +:+ pretty (Qnum folderID) +:+ ","), "}".
  change (":" +:+ "true") with ":true".
  by rewrite !app_assoc_string.
Qed.

(** The service that refuses what does not ask to overwrite never answers a
    version mismatch to a request that does: the engine then nests one level
    deep at most. *)
Lemma contended_overwrite_never_mismatches : overwrite_never_mismatches (H := contended).
Proof.
  intros folderID dashboard b w Hb.
  change (SetRequest "POST" dashboardsURL (Some b) retry w)
    with (if asks_to_overwrite (Some b)
          then ((text_of (JObject [("status", JString "success")]), 200), w)
          else (version_mismatch, w)).
  cbn [asks_to_overwrite]. by rewrite (overwrite_is_written _ _ _ Hb).
Qed.

Example contended_terminates (fuel : nat) (obj : Obj) (overwrite : bool) :
  terminates (updateDashboard (H := contended) (S (S fuel)) obj overwrite).
Proof.
  apply (updateDashboard_terminates (H := contended)),
    contended_overwrite_never_mismatches.
Qed.

Lemma count_POST_upsert b resp status t :
  count_calls "POST" dashboardsURL (Call "POST" dashboardsURL b resp status :: t)
  = S (count_calls "POST" dashboardsURL t).
Proof. reflexivity. Qed.

Lemma serve_upsert (b : string) (g : Grafana) :
  serve "POST" dashboardsURL (Some b) retry g
  = match answers g with
    | a :: rest => (a, {| folders := folders g; answers := rest |})
    | [] => ((text_of (JObject [("status", JString "success")]), 200), g)
    end.
Proof. reflexivity. Qed.

(** For every number [n] of version mismatches in a row there is a run in
    which the engine nests [n] calls of itself: with the one-document
    resource in the general folder, [n + 1] upserts are sent, all but the
    first asking to overwrite, and a model that follows fewer than [n + 1]
    levels runs out of fuel. *)
Lemma retry_depth_follows_service (n : nat) (overwrite : bool) :
  let w := {| folders := []; answers := replicate n version_mismatch |} in
  let obj := acme_obj general one_dashboard in
  outcome (updateDashboard (H := env) n obj overwrite w) = OutOfFuel
  ∧ outcome (updateDashboard (H := env) (S n) obj overwrite w) = Returned tt
  ∧ count_calls "POST" dashboardsURL
      (trace (updateDashboard (H := env) (S n) obj overwrite w)) = S n.
Proof.
  cbv zeta. revert overwrite.
  assert (uses_general_folder (acme general one_dashboard)) as Hg
    by (vm_compute; tauto).
  assert (∀ w : Grafana, mapRange (Env := env) one_dashboard w
                         = ([("d1", js "{'title':'A'}")], w)) as Hrange
    by (intros w; vm_compute; reflexivity).
  assert (Unmarshal_map (H := env) (js "{'title':'A'}")
          = Some (a_map (fields_to_map [("title", JString "A")]))) as Hparse
    by (vm_compute; reflexivity).
  assert (∀ overwrite, ∃ b,
            json_Marshal (Env := env)
              (upsertRequest 0 overwrite
                 (submitted_for (H := env) (acme general one_dashboard)
                    (fields_to_map [("title", JString "A")]))) = Some b) as Hb
    by (intros []; eexists; vm_compute; reflexivity).
  assert (∀ fuel overwrite w,
            updateDashboard (H := env) (S fuel) (acme_obj general one_dashboard) overwrite w
            = updateDashboard_loop (H := env)
                (updateDashboard (H := env) fuel (acme_obj general one_dashboard) true)
                (acme general one_dashboard) 0%Q overwrite
                [("d1", js "{'title':'A'}")] w) as Hunfold.
  { intros fuel overwrite w. unfold acme_obj.
    rewrite (updateDashboard_general (H := env)) by done.
    rewrite (range_bind_run (H := env)). cbn [Data acme]. by rewrite Hrange. }
  induction n as [|n IH]; intros overwrite.
  - split; [reflexivity|]. rewrite Hunfold. destruct (Hb overwrite) as [b Hmarshal].
    rewrite (updateDashboard_loop_step (H := env) _ _ _ _ _ _ _ _ _ _ Hparse Hmarshal).
    cbv zeta. change (SetRequest (Env := env)) with serve. rewrite serve_upsert.
    cbn [answers folders replicate fst snd]. split; reflexivity.
  - destruct (Hb overwrite) as [b Hmarshal].
    destruct (IH true) as (Hout & Hret & Hcount).
    rewrite !Hunfold.
    rewrite !(updateDashboard_loop_step (H := env) _ _ _ _ _ _ _ _ _ _ Hparse Hmarshal).
    cbv zeta. change (SetRequest (Env := env)) with serve. rewrite serve_upsert.
    cbn [answers folders replicate fst snd].
    change (is_version_mismatch version_mismatch.1 version_mismatch.2) with true.
    cbv iota. unfold after_event. cbn [outcome trace].
    rewrite !(outcome_bind (H := env)), !(trace_bind (H := env)).
    rewrite Hout, Hret. split_and!; [reflexivity..|].
    rewrite count_POST_upsert, count_calls_app, Hcount.
    cbn [updateDashboard_loop ret trace]. by rewrite Nat.add_0_r.
Qed.

End Examples.

(** * The further properties at work *)

Module MoreExamples.
Import Demo.

(** The payloads of the two-document resource. *)
Lemma two_dashboards_entries (key value : string) :
  two_dashboards !! key = Some value →
  (key, value) = ("d1", js "{'title':'A'}")
  ∨ (key, value) = ("d2", js "{'title':'B','uid':'b-uid','id':7}").
Proof.
  intros Hkv. apply elem_of_map_to_list in Hkv. vm_compute in Hkv.
  apply elem_of_cons in Hkv as [-> | Hkv]; [by left|].
  apply elem_of_cons in Hkv as [-> | Hkv]; [by right|].
  by apply elem_of_nil in Hkv.
Qed.

Lemma two_dashboards_deletable (labels : gmap string string) (key value : string) :
  Data (acme labels two_dashboards) !! key = Some value → deletable (H := env) value.
Proof.
  intros [[= -> ->] | [= -> ->]]%two_dashboards_entries.
  - eexists. split; [vm_compute; reflexivity | left; vm_compute; reflexivity].
  - eexists. split; [vm_compute; reflexivity | right; eexists; vm_compute; reflexivity].
Qed.

Lemma two_dashboards_upsertable (labels : gmap string string) (overwrite : bool)
    (key value : string) :
  Data (acme labels two_dashboards) !! key = Some value →
  upsertable (H := env) (acme labels two_dashboards) 0%Q overwrite value.
Proof.
  intros [[= -> ->] | [= -> ->]]%two_dashboards_entries;
    (eexists; split; [vm_compute; reflexivity | destruct overwrite; eexists; vm_compute; reflexivity]).
Qed.

(** ** The folders *)

Lemma hasCustomFolder_first_match_witness :
  let w := [(js "[{'id':3,'title':'Other'},{'id':4,'title':'Custom'},{'id':5,'title':'Custom'}]", 200)] in
  outcome (hasCustomFolder (H := scripted) "Custom" w) = Returned 4%Q
  ∧ trace (hasCustomFolder (H := scripted) "Custom" w)
    = [Call "GET" foldersURL None
            (SetRequest (Env := scripted) "GET" foldersURL None retry w).1.1
            (SetRequest (Env := scripted) "GET" foldersURL None retry w).1.2].
Proof.
  intros w.
  refine (hasCustomFolder_first_match (H := scripted) "Custom" w
            (a_map (fields_to_map [("id", JNumber 4); ("title", JString "Custom")]))
            4%Q _ _).
  - exists [a_map (fields_to_map [("id", JNumber 3); ("title", JString "Other")])],
           [a_map (fields_to_map [("id", JNumber 5); ("title", JString "Custom")])].
    split_and!; [vm_compute; reflexivity | repeat constructor | vm_compute; reflexivity].
  - vm_compute. reflexivity.
Defined.

Lemma hasCustomFolder_absent_witness :
  let w := [(js "[{'id':3,'title':'Other'}]", 200)] in
  outcome (hasCustomFolder (H := scripted) "Custom" w) = Returned 0%Q
  ∧ final (hasCustomFolder (H := scripted) "Custom" w)
    = (SetRequest (Env := scripted) "GET" foldersURL None retry w).2
  ∧ (List.filter (λ e, negb (is_a_call e))
       (trace (hasCustomFolder (H := scripted) "Custom" w))
     = match Unmarshal_maps (H := scripted)
               (SetRequest (Env := scripted) "GET" foldersURL None retry w).1.1 with
       | Some _ => []
       | None => [Log Error "Failed to unmarshall response body"]
       end).
Proof.
  intros w.
  refine (hasCustomFolder_absent (H := scripted) "Custom" w _).
  intros folders Hlist. vm_compute in Hlist. injection Hlist as <-.
  repeat constructor.
Defined.

Lemma createCustomFolder_creates_witness :
  let w1 := final (hasCustomFolder (H := env) "Custom" fresh) in
  let resp := (SetRequest (Env := env) "POST" foldersURL
                 (Some (folder_body "Custom")) retry w1).1 in
  calls (trace (createCustomFolder (H := env) "Custom" fresh))
  = calls (trace (hasCustomFolder (H := env) "Custom" fresh))
    ++ [Call "POST" foldersURL (Some (folder_body "Custom")) resp.1 resp.2]
  ∧ (∀ folder x, Unmarshal_map (H := env) resp.1 = Some folder →
                 folder !! "id" = Some (JNumber x) →
                 outcome (createCustomFolder (H := env) "Custom" fresh) = Returned x)
  ∧ (Unmarshal_map (H := env) resp.1 = None →
     outcome (createCustomFolder (H := env) "Custom" fresh) = Returned 0%Q).
Proof.
  refine (createCustomFolder_creates (H := env) "Custom" fresh 0%Q _ _);
    vm_compute; reflexivity.
Defined.

Lemma createCustomFolder_existing_witness :
  let w := {| folders := [(1, "Custom")]; answers := [] |} in
  outcome (createCustomFolder (H := env) "Custom" w) = Returned 1%Q
  ∧ calls (trace (createCustomFolder (H := env) "Custom" w))
    = [Call "GET" foldersURL None
            (SetRequest (Env := env) "GET" foldersURL None retry w).1.1
            (SetRequest (Env := env) "GET" foldersURL None retry w).1.2].
Proof.
  intros w.
  refine (createCustomFolder_existing (H := env) "Custom" w
            (a_map (fields_to_map [("id", JNumber 1); ("title", JString "Custom")]))
            1%Q _ _ _).
  - exists [], []. split_and!; [vm_compute; reflexivity | constructor | vm_compute; reflexivity].
  - vm_compute. reflexivity.
  - reflexivity.
Defined.

(** ** The upsert engine *)

Lemma upsert_stops_at_bad_payload_witness :
  let cm := acme general ∅ in
  let again := updateDashboard (H := env) 1 (ObjConfigMap (Some cm)) true in
  updateDashboard_loop (H := env) again cm 0%Q false
    ([("a", js "{'title':'A'}")] ++ ("b", "oops") :: [("c", js "{'title':'C'}")]) fresh
  = updateDashboard_loop (H := env) again cm 0%Q false
      ([("a", js "{'title':'A'}")] ++ [("b", "oops")]) fresh.
Proof.
  intros cm again.
  refine (upsert_stops_at_bad_payload (H := env) again cm 0%Q false
            [("a", js "{'title':'A'}")] [("c", js "{'title':'C'}")] "b" "oops" fresh _).
  vm_compute. exact I.
Defined.

Lemma upsert_one_per_entry_witness :
  let w := {| folders := []; answers := [name_exists] |} in
  let r := updateDashboard (H := env) 1 (acme_obj general two_dashboards) false w in
  outcome r = Returned tt ∧ upserts (trace r) = size two_dashboards.
Proof.
  intros w r.
  refine (upsert_one_per_entry (H := env) 0 (acme general two_dashboards) false w
            0%Q w _ _ _).
  - vm_compute. reflexivity.
  - apply two_dashboards_upsertable.
  - vm_compute. reflexivity.
Defined.

Lemma upsert_reaches_bad_payload_witness :
  let data : gmap string string :=
    {[ "a" := js "{'title':'A'}"; "b" := "oops"; "c" := js "{'title':'C'}" ]} in
  let r := updateDashboard (H := env) 1 (acme_obj general data) false fresh in
  outcome r = (match Unmarshal_map (H := env) "oops" with
               | Some nil_map => Panicked nil_map_write
               | _ => Returned tt
               end)
  ∧ upserts (trace r) = length [("a", js "{'title':'A'}")].
Proof.
  intros data r.
  refine (upsert_reaches_bad_payload (H := env) 0 (acme general data) false fresh
            0%Q fresh [("a", js "{'title':'A'}")] [("c", js "{'title':'C'}")]
            "b" "oops" _ _ _ _ _).
  - vm_compute. reflexivity.
  - vm_compute. reflexivity.
  - repeat constructor. eexists. split; [vm_compute; reflexivity | eexists; vm_compute; reflexivity].
  - vm_compute. exact I.
  - vm_compute. reflexivity.
Defined.

Lemma retry_depth_bounded_by_mismatches_witness :
  (1 ≤ mismatches
         (trace (updateDashboard (H := contended) 1 (acme_obj general one_dashboard)
                   false fresh)))%nat.
Proof.
  refine (retry_depth_bounded_by_mismatches (H := contended) 1
            (acme_obj general one_dashboard) false fresh _).
  vm_compute. reflexivity.
Defined.

(** ** The deletion engine *)

Lemma delete_one_per_entry_witness :
  outcome (deleteDashboard (H := env) (acme_obj custom two_dashboards) fresh) = Returned tt
  ∧ count_method "DELETE"
      (trace (deleteDashboard (H := env) (acme_obj custom two_dashboards) fresh))
    = size two_dashboards.
Proof.
  refine (delete_one_per_entry (H := env) (acme custom two_dashboards) fresh _).
  apply two_dashboards_deletable.
Defined.

(** ** The handlers *)

Lemma UpdateFunc_ignores_metadata_witness :
  let old := {| object := acme_obj custom one_dashboard; nil_data := false |} in
  let new := {| object := ObjConfigMap (Some (with_folder "Other" (acme custom one_dashboard)));
                nil_data := false |} in
  UpdateFunc (H := env) 1 old new fresh = ret (H := env) tt fresh.
Proof.
  intros old new.
  refine (UpdateFunc_ignores_metadata (H := env) 1 old new (acme custom one_dashboard)
            (with_folder "Other" (acme custom one_dashboard)) fresh _ _ _ _);
    reflexivity.
Defined.

(** ** Every entry is served, and what is submitted is deleted *)

Lemma delete_reaches_every_entry_witness :
  ∃ resp status,
    Call "DELETE" (deleteURL "b-uid") None resp status
    ∈ trace (deleteDashboard (H := env) (acme_obj custom two_dashboards) fresh).
Proof.
  refine (delete_reaches_every_entry (H := env) (acme custom two_dashboards) fresh
            "d2" (js "{'title':'B','uid':'b-uid','id':7}")
            (a_map (fields_to_map [("title", JString "B"); ("uid", JString "b-uid");
                                   ("id", JNumber 7)])) _ _ _);
    [| vm_compute; reflexivity | vm_compute; reflexivity].
  apply two_dashboards_deletable.
Defined.

Lemma upsert_reaches_every_entry_witness :
  let w := {| folders := []; answers := [name_exists] |} in
  ∃ resp status,
    Call "POST" dashboardsURL
      (Some (js "{'dashboard':{'id':null,'title':'B','uid':'b-uid'},'folderId':0,'overwrite':false}"))
      resp status
    ∈ trace (updateDashboard (H := env) 1 (acme_obj general two_dashboards) false w).
Proof.
  intros w.
  refine (upsert_reaches_every_entry (H := env) 0 (acme general two_dashboards) false w
            0%Q w "d2" (js "{'title':'B','uid':'b-uid','id':7}")
            (fields_to_map [("title", JString "B"); ("uid", JString "b-uid");
                            ("id", JNumber 7)]) _ _ _ _ _ _ _);
    [vm_compute; reflexivity | apply two_dashboards_upsertable | vm_compute; reflexivity..].
Defined.

Lemma upserted_uid_is_deleted_witness :
  Forall (undone_by_delete (H := env) (acme custom two_dashboards))
         (trace (updateDashboard (H := env) 2 (acme_obj custom two_dashboards) false
                   {| folders := []; answers := [version_mismatch] |})).
Proof.
  refine (upserted_uid_is_deleted (H := env) 2 (acme custom two_dashboards) false _ _).
  apply two_dashboards_deletable.
Defined.

End MoreExamples.
